(** * ChatDB agent glue (agent.py): a shallow embedding and its properties

    The module under study wires a SQL tool adapter, a vector store, a set of
    per-key resource caches and a result-forwarding callback together.  Its
    functions are embedded as state-and-exception passing functions over a
    [World] that holds everything the Python code reads or mutates: the
    Streamlit session state, the SQL servers, the hosted vector service, the
    objects on the heap, the four resource caches, and a log of the calls
    made to external services. *)

From Stdlib Require Import ZArith Ascii String List DecimalString.
From stdpp Require Import gmap strings list fin_maps.

Local Open Scope string_scope.
Local Open Scope Z_scope.

(** ** Python values, exceptions and outcomes *)

(** The column values a result row can hold. *)
Inductive pyval :=
| PyInt (z : Z)
| PyStr (s : string)
| PyBool (b : bool)
| PyNone.

(** [str(entry)] *)
Definition str (entry : pyval) : string :=
  match entry with
  | PyInt z => NilZero.string_of_int (Z.to_int z)
  | PyStr s => s
  | PyBool true => "True"
  | PyBool false => "False"
  | PyNone => "None"
  end.

(** A row as returned by [fetchall()]: the tuple of its column values. *)
Definition Row := list pyval.

Inductive exn :=
| ValueError (msg : string)
| AttributeError (attr : string)
| KeyError (key : string)
| LibraryError (msg : string).

Inductive outcome (A : Type) :=
| Returns (a : A)
| Raises (e : exn).
Arguments Returns {A} a.
Arguments Raises {A} e.

(** A Python computation over a mutable state [S]: effects made before an
    exception is raised stay in the state. *)
Definition M (S A : Type) : Type := S → outcome A * S.

Definition ret {S A} (a : A) : M S A := λ s, (Returns a, s).

Definition bind {S A B} (m : M S A) (k : A → M S B) : M S B :=
  λ s, match m s with
       | (Returns a, s') => k a s'
       | (Raises e, s') => (Raises e, s')
       end.

Definition raise {S A} (e : exn) : M S A := λ s, (Raises e, s).
Definition gets {S A} (f : S → A) : M S A := λ s, (Returns (f s), s).
Definition modify {S} (f : S → S) : M S unit := λ s, (Returns tt, f s).

Declare Scope py_scope.
Delimit Scope py_scope with py.
Notation "x <- m ;; k" := (bind m (λ x, k))
  (at level 100, m at next level, right associativity) : py_scope.
Notation "m ;;; k" := (bind m (λ _, k))
  (at level 100, right associativity) : py_scope.
Local Open Scope py_scope.

(** [for x in xs: acc = body(acc, x)] *)
Fixpoint for_each {S A B} (xs : list A) (acc : B) (body : B → A → M S B) : M S B :=
  match xs with
  | [] => ret acc
  | x :: rest => acc' <- body acc x ;; for_each rest acc' body
  end.

(** ** Data model *)

Record Document := { text : string }.

(** Modelled from the spec: the [VectorStoreType] enumeration of [common],
    "discriminator (in-memory vs hosted)". *)
Inductive VectorStoreType := InMemory | PineconeDB.

(** Modelled from the spec: the [VectorStoreProps] descriptor of [common],
    "discriminator (in-memory vs hosted) plus hosted-specific fields (API
    key, environment, index name)". *)
Record VectorStoreProps := {
  store_type : VectorStoreType;
  api_key : string;
  environment : string;
  index_name : string
}.

(** Modelled from the spec: [get_vector_store_type] of [common] reads the
    discriminator of a descriptor. *)
Definition get_vector_store_type (props : VectorStoreProps) : VectorStoreType :=
  store_type props.

(** Modelled from the spec: [DatabaseProps] of [common], "connection URI for
    a SQL database". *)
Record DatabaseProps := { uri : string }.

(** Modelled from the spec: [Conversation] of [common], "a vector-store id,
    a list of database ids, a mutable queue of (query, result-rows) pairs
    [...] and a last-update timestamp".  The timestamp is a float that is
    only ever stored and compared; it is represented by its bit pattern. *)
Record Conversation := {
  vector_store_id : string;
  database_ids : list string;
  query_results_queue : list (string * list Row);
  last_update_timestamp : Z
}.

(** [st.session_state] *)
Record SessionState := {
  vector_stores : gmap string VectorStoreProps;
  databases : gmap string DatabaseProps;
  conversations : gmap string Conversation;
  current_conversation : string
}.

(** A value stored in the [handler] attribute: [None], or a function typed
    [Callable[[str, Iterable], None]].  Such a function only iterates the
    rows it is given; what it can change is the session state. *)
Inductive Handler :=
| HandlerNone
| HandlerFunc (f : string → list Row → M SessionState unit).

(** A [TrackingDatabaseToolSpec] object.  The class body only annotates
    [handler]; the attribute exists on an instance only once [set_handler]
    has assigned it.  [handler self = None] stands for the missing attribute,
    [Some HandlerNone] for an attribute holding Python's [None]. *)
Record TrackingDatabaseToolSpec := {
  spec_uri : string;
  handler : option Handler
}.

(** [TrackingDatabaseToolSpec(uri=...)] *)
Definition new_spec (u : string) : TrackingDatabaseToolSpec :=
  {| spec_uri := u; handler := None |}.

(** [set_handler] *)
Definition set_handler (self : TrackingDatabaseToolSpec) (func : Handler)
  : TrackingDatabaseToolSpec :=
  {| spec_uri := spec_uri self; handler := Some func |}.

(** ** External services *)

(** The operations of the SQL library that the adapter relies on, as
    transitions of the state [DB] of the database servers.  Every operation
    names the connection URI of the engine it goes through. *)
Class SqlBackend (DB : Type) := {
  Cursor : Type;
  (** building the [SQLDatabase] of a new adapter *)
  sql_open : string → M DB unit;
  (** [engine.connect()] *)
  sql_connect : string → M DB unit;
  (** leaving the [with] block of a connection *)
  sql_close : string → DB → DB;
  (** [connection.execute(text(query))] *)
  sql_execute : string → string → M DB Cursor;
  (** [result.fetchall()] *)
  sql_fetchall : Cursor → outcome (list Row);
  (** [list_tables()] *)
  sql_list_tables : string → M DB (list string);
  (** [describe_tables(tables)] *)
  sql_describe_tables : string → list string → M DB string
}.

(** The hosted vector service: the client configuration set by
    [pinecone.init] and the indexes that exist remotely. *)
Record PineconeIndex := {
  pi_name : string;
  pi_dimension : Z;
  pi_metric : string;
  pi_vectors : list Document
}.

Record Pinecone := {
  pc_api_key : option string;
  pc_environment : option string;
  pc_indexes : list PineconeIndex
}.

(** ** Objects built by the module *)

Definition loc := nat.

Inductive VectorStore :=
| SimpleVectorStore (data : list Document)
| PineconeVectorStore (pinecone_index : string).

Record StorageContext := { vector_store : VectorStore }.

Record VectorStoreIndex := {
  index_documents : list Document;
  index_storage_context : loc
}.

Record QueryEngine := { engine_index : VectorStoreIndex }.

Record ToolMetadata := { name : string; description : string }.

Record QueryEngineTool := {
  query_engine : QueryEngine;
  metadata : ToolMetadata
}.

(** The tools handed to the agent: a query-engine tool, or one of the
    adapter's own functions bound to the adapter object. *)
Inductive Tool :=
| ToolQueryEngine (t : QueryEngineTool)
| ToolFunction (fn_name : string) (spec : loc).

Record OpenAIAgent := { agent_tools : list Tool; verbose : bool }.

(** Calls made to the outside and objects constructed, in program order. *)
Inductive event :=
| EvConnect (u : string)
| EvExecute (u query : string)
| EvFetchall
| EvClose (u : string)
| EvHandler (query : string) (items : list Row)
| EvListTables (u : string)
| EvDescribeTables (u : string) (tables : list string)
| EvPineconeInit (key env : string)
| EvPineconeListIndexes
| EvPineconeCreateIndex (idx : string) (dimension : Z) (metric : string)
| EvPineconeIndex (idx : string)
| EvIndexDocuments (sc : loc) (docs : list Document)
| EvNewSpec (l : loc) (u : string)
| EvNewStorageContext (l : loc)
| EvNewAgent (l : loc).

Section Agent.

Context {DB : Type} `{!SqlBackend DB}.

(** ** The world *)

Record World := {
  session_state : SessionState;
  sql : DB;
  pinecone : Pinecone;
  (** heap *)
  specs : gmap loc TrackingDatabaseToolSpec;
  storage_contexts : gmap loc StorageContext;
  agents : gmap loc OpenAIAgent;
  next_loc : loc;
  (** [st.cache_resource] stores, one per decorated function *)
  storage_context_cache : gmap string loc;
  database_spec_cache : gmap string loc;
  query_tool_cache : gmap (string * string) QueryEngineTool;
  agent_cache : gmap (string * Z) loc;
  (** log of external calls *)
  trace : list event
}.

Definition set_session_state (v : SessionState) (w : World) : World :=
  {| session_state := v; sql := sql w; pinecone := pinecone w;
     specs := specs w; storage_contexts := storage_contexts w;
     agents := agents w; next_loc := next_loc w;
     storage_context_cache := storage_context_cache w;
     database_spec_cache := database_spec_cache w;
     query_tool_cache := query_tool_cache w;
     agent_cache := agent_cache w; trace := trace w |}.

Definition set_sql (v : DB) (w : World) : World :=
  {| session_state := session_state w; sql := v; pinecone := pinecone w;
     specs := specs w; storage_contexts := storage_contexts w;
     agents := agents w; next_loc := next_loc w;
     storage_context_cache := storage_context_cache w;
     database_spec_cache := database_spec_cache w;
     query_tool_cache := query_tool_cache w;
     agent_cache := agent_cache w; trace := trace w |}.

Definition set_pinecone (v : Pinecone) (w : World) : World :=
  {| session_state := session_state w; sql := sql w; pinecone := v;
     specs := specs w; storage_contexts := storage_contexts w;
     agents := agents w; next_loc := next_loc w;
     storage_context_cache := storage_context_cache w;
     database_spec_cache := database_spec_cache w;
     query_tool_cache := query_tool_cache w;
     agent_cache := agent_cache w; trace := trace w |}.

Definition set_specs (v : gmap loc TrackingDatabaseToolSpec) (w : World) : World :=
  {| session_state := session_state w; sql := sql w; pinecone := pinecone w;
     specs := v; storage_contexts := storage_contexts w;
     agents := agents w; next_loc := next_loc w;
     storage_context_cache := storage_context_cache w;
     database_spec_cache := database_spec_cache w;
     query_tool_cache := query_tool_cache w;
     agent_cache := agent_cache w; trace := trace w |}.

Definition set_storage_contexts (v : gmap loc StorageContext) (w : World) : World :=
  {| session_state := session_state w; sql := sql w; pinecone := pinecone w;
     specs := specs w; storage_contexts := v;
     agents := agents w; next_loc := next_loc w;
     storage_context_cache := storage_context_cache w;
     database_spec_cache := database_spec_cache w;
     query_tool_cache := query_tool_cache w;
     agent_cache := agent_cache w; trace := trace w |}.

Definition set_agents (v : gmap loc OpenAIAgent) (w : World) : World :=
  {| session_state := session_state w; sql := sql w; pinecone := pinecone w;
     specs := specs w; storage_contexts := storage_contexts w;
     agents := v; next_loc := next_loc w;
     storage_context_cache := storage_context_cache w;
     database_spec_cache := database_spec_cache w;
     query_tool_cache := query_tool_cache w;
     agent_cache := agent_cache w; trace := trace w |}.

Definition set_next_loc (v : loc) (w : World) : World :=
  {| session_state := session_state w; sql := sql w; pinecone := pinecone w;
     specs := specs w; storage_contexts := storage_contexts w;
     agents := agents w; next_loc := v;
     storage_context_cache := storage_context_cache w;
     database_spec_cache := database_spec_cache w;
     query_tool_cache := query_tool_cache w;
     agent_cache := agent_cache w; trace := trace w |}.

Definition set_storage_context_cache (v : gmap string loc) (w : World) : World :=
  {| session_state := session_state w; sql := sql w; pinecone := pinecone w;
     specs := specs w; storage_contexts := storage_contexts w;
     agents := agents w; next_loc := next_loc w;
     storage_context_cache := v;
     database_spec_cache := database_spec_cache w;
     query_tool_cache := query_tool_cache w;
     agent_cache := agent_cache w; trace := trace w |}.

Definition set_database_spec_cache (v : gmap string loc) (w : World) : World :=
  {| session_state := session_state w; sql := sql w; pinecone := pinecone w;
     specs := specs w; storage_contexts := storage_contexts w;
     agents := agents w; next_loc := next_loc w;
     storage_context_cache := storage_context_cache w;
     database_spec_cache := v;
     query_tool_cache := query_tool_cache w;
     agent_cache := agent_cache w; trace := trace w |}.

Definition set_query_tool_cache (v : gmap (string * string) QueryEngineTool)
    (w : World) : World :=
  {| session_state := session_state w; sql := sql w; pinecone := pinecone w;
     specs := specs w; storage_contexts := storage_contexts w;
     agents := agents w; next_loc := next_loc w;
     storage_context_cache := storage_context_cache w;
     database_spec_cache := database_spec_cache w;
     query_tool_cache := v;
     agent_cache := agent_cache w; trace := trace w |}.

Definition set_agent_cache (v : gmap (string * Z) loc) (w : World) : World :=
  {| session_state := session_state w; sql := sql w; pinecone := pinecone w;
     specs := specs w; storage_contexts := storage_contexts w;
     agents := agents w; next_loc := next_loc w;
     storage_context_cache := storage_context_cache w;
     database_spec_cache := database_spec_cache w;
     query_tool_cache := query_tool_cache w;
     agent_cache := v; trace := trace w |}.

Definition set_trace (v : list event) (w : World) : World :=
  {| session_state := session_state w; sql := sql w; pinecone := pinecone w;
     specs := specs w; storage_contexts := storage_contexts w;
     agents := agents w; next_loc := next_loc w;
     storage_context_cache := storage_context_cache w;
     database_spec_cache := database_spec_cache w;
     query_tool_cache := query_tool_cache w;
     agent_cache := agent_cache w; trace := v |}.

(** Primitive steps. *)

Definition log (e : event) : M World unit :=
  modify (λ w, set_trace (trace w ++ [e]) w).

Definition lift_sql {A} (m : M DB A) : M World A :=
  λ w, let (r, db) := m (sql w) in (r, set_sql db w).

Definition lift_session {A} (m : M SessionState A) : M World A :=
  λ w, let (r, ss) := m (session_state w) in (r, set_session_state ss w).

Definition lift_outcome {S A} (o : outcome A) : M S A := λ s, (o, s).

(** A step that only reads the world. *)
Definition read {A} (f : World → outcome A) : M World A := λ w, (f w, w).

(** Object creation: the new object gets the next free address. *)
Definition alloc_spec (s : TrackingDatabaseToolSpec) : M World loc :=
  λ w, (Returns (next_loc w),
        set_next_loc (S (next_loc w))
          (set_specs (<[next_loc w := s]> (specs w)) w)).

Definition alloc_storage_context (c : StorageContext) : M World loc :=
  λ w, (Returns (next_loc w),
        set_next_loc (S (next_loc w))
          (set_storage_contexts (<[next_loc w := c]> (storage_contexts w)) w)).

Definition alloc_agent (a : OpenAIAgent) : M World loc :=
  λ w, (Returns (next_loc w),
        set_next_loc (S (next_loc w))
          (set_agents (<[next_loc w := a]> (agents w)) w)).

(** [d[k]] on a session-state mapping *)
Definition getitem {V} (d : gmap string V) (k : string) : outcome V :=
  match d !! k with
  | Some v => Returns v
  | None => Raises (KeyError k)
  end.

(** ** TrackingDatabaseToolSpec.load_data *)

(** [with self.sql_database.engine.connect() as connection: body] — the
    connection is opened first; it is closed when the block is left, whether
    [body] returns or raises. *)
Definition with_connection {A} (u : string) (body : M World A) : M World A :=
  λ w, match (log (EvConnect u) ;;; lift_sql (sql_connect u)) w with
       | (Raises e, w1) => (Raises e, w1)
       | (Returns _, w1) =>
           let (r, w2) := body w1 in
           (r, set_trace (trace w2 ++ [EvClose u]) (set_sql (sql_close u (sql w2)) w2))
       end.

Definition execute (u query : string) : M World Cursor :=
  log (EvExecute u query) ;;; lift_sql (sql_execute u query).

Definition fetchall (result : Cursor) : M World (list Row) :=
  log EvFetchall ;;; lift_outcome (sql_fetchall result).

(** [self.handler(query, items)] *)
Definition call_handler (f : string → list Row → M SessionState unit)
    (query : string) (items : list Row) : M World unit :=
  log (EvHandler query items) ;;; lift_session (f query items).

(** [", ".join([str(entry) for entry in item])] wrapped in a [Document] *)
Definition row_document (item : Row) : Document :=
  {| text := String.concat ", " (map str item) |}.

Definition load_data (self : TrackingDatabaseToolSpec) (query : option string)
  : M World (list Document) :=
  with_connection (spec_uri self)
    match query with
    | None => raise (ValueError "A query parameter is necessary to filter the data")
    | Some q =>
        result <- execute (spec_uri self) q ;;
        items <- fetchall result ;;
        (* if self.handler: self.handler(query, items) *)
        (match handler self with
         | None => raise (AttributeError "handler")
         | Some HandlerNone => ret tt
         | Some (HandlerFunc f) => call_handler f q items
         end) ;;;
        ret (map row_document items)
    end.

(** ** database_spec_handler *)

Definition append_result (conversation : Conversation)
    (entry : string * list Row) : Conversation :=
  {| vector_store_id := vector_store_id conversation;
     database_ids := database_ids conversation;
     query_results_queue := query_results_queue conversation ++ [entry];
     last_update_timestamp := last_update_timestamp conversation |}.

Definition database_spec_handler (query : string) (items : list Row)
  : M SessionState unit :=
  λ ss,
    match getitem (conversations ss) (current_conversation ss) with
    | Raises e => (Raises e, ss)
    | Returns conversation =>
        (Returns tt,
         {| vector_stores := vector_stores ss;
            databases := databases ss;
            conversations :=
              <[current_conversation ss := append_result conversation (query, items)]>
                (conversations ss);
            current_conversation := current_conversation ss |})
    end.


(** ** The resource cache *)

(** [@st.cache_resource]: one store per decorated function, keyed by the
    call's arguments.  A hit returns the stored object itself and runs
    nothing; a miss runs the function and stores what it returns; a call
    that raises stores nothing. *)
Definition cache_resource {K V} `{Countable K}
    (store : World → gmap K V) (set_store : gmap K V → World → World)
    (f : K → M World V) (key : K) : M World V :=
  λ w, match store w !! key with
       | Some v => (Returns v, w)
       | None =>
           match f key w with
           | (Returns v, w') => (Returns v, set_store (<[key := v]> (store w')) w')
           | (Raises e, w') => (Raises e, w')
           end
       end.

(** ** get_storage_context *)

Definition pinecone_init (key env : string) : M World unit :=
  log (EvPineconeInit key env) ;;;
  modify (λ w, set_pinecone
                 {| pc_api_key := Some key; pc_environment := Some env;
                    pc_indexes := pc_indexes (pinecone w) |} w).

Definition pinecone_list_indexes : M World (list string) :=
  log EvPineconeListIndexes ;;;
  gets (λ w, map pi_name (pc_indexes (pinecone w))).

Definition pinecone_create_index (idx : string) (dimension : Z) (metric : string)
  : M World unit :=
  log (EvPineconeCreateIndex idx dimension metric) ;;;
  existing <- gets (λ w, map pi_name (pc_indexes (pinecone w))) ;;
  if bool_decide (idx ∈ existing)
  then raise (LibraryError "index already exists")
  else modify (λ w, set_pinecone
                      {| pc_api_key := pc_api_key (pinecone w);
                         pc_environment := pc_environment (pinecone w);
                         pc_indexes := pc_indexes (pinecone w) ++
                           [{| pi_name := idx; pi_dimension := dimension;
                               pi_metric := metric; pi_vectors := [] |}] |} w).

(** [pinecone.Index(index_name)]: a handle on the named index *)
Definition pinecone_Index (idx : string) : M World string :=
  log (EvPineconeIndex idx) ;;; ret idx.

(** [StorageContext.from_defaults(vector_store=...)]: a new storage context;
    without a vector store it gets an in-memory one. *)
Definition StorageContext_from_defaults (vs : option VectorStore) : M World loc :=
  l <- alloc_storage_context
         {| vector_store := default (SimpleVectorStore []) vs |} ;;
  log (EvNewStorageContext l) ;;;
  ret l.

Definition get_storage_context_body (vsid : string) : M World loc :=
  vector_store_props <-
    read (λ w, getitem (vector_stores (session_state w)) vsid) ;;
  vector_store <-
    match get_vector_store_type vector_store_props with
    | InMemory => ret (Some (SimpleVectorStore []))
    | PineconeDB =>
        (* Initialize connection to pinecone *)
        pinecone_init (api_key vector_store_props) (environment vector_store_props) ;;;
        (* Create the index if it does not exist already *)
        let index_name := index_name vector_store_props in
        existing <- pinecone_list_indexes ;;
        (if bool_decide (index_name ∈ existing) then ret tt
         else pinecone_create_index index_name 1536 "cosine") ;;;
        (* Connect to the index *)
        pinecone_index <- pinecone_Index index_name ;;
        ret (Some (PineconeVectorStore pinecone_index))
    end ;;
  StorageContext_from_defaults vector_store.

Definition get_storage_context : string → M World loc :=
  cache_resource storage_context_cache set_storage_context_cache
    get_storage_context_body.

(** ** get_database_spec *)

(** [TrackingDatabaseToolSpec(uri=...)] on the heap *)
Definition TrackingDatabaseToolSpec_new (u : string) : M World loc :=
  lift_sql (sql_open u) ;;;
  l <- alloc_spec (new_spec u) ;;
  log (EvNewSpec l u) ;;;
  ret l.

Definition get_database_spec_body (database_id : string) : M World loc :=
  database <- read (λ w, getitem (databases (session_state w)) database_id) ;;
  TrackingDatabaseToolSpec_new (uri database).

Definition get_database_spec : string → M World loc :=
  cache_resource database_spec_cache set_database_spec_cache
    get_database_spec_body.

(** ** get_query_tool *)

(** Following a reference to an adapter object. *)
Definition deref_spec (l : loc) : M World TrackingDatabaseToolSpec :=
  read (λ w, match specs w !! l with
             | Some s => Returns s
             | None => Raises (LibraryError "dangling reference")
             end).

Definition deref_storage_context (l : loc) : M World StorageContext :=
  read (λ w, match storage_contexts w !! l with
             | Some c => Returns c
             | None => Raises (LibraryError "dangling reference")
             end).

Definition list_tables (db_spec : loc) : M World (list string) :=
  self <- deref_spec db_spec ;;
  log (EvListTables (spec_uri self)) ;;;
  lift_sql (sql_list_tables (spec_uri self)).

Definition describe_tables (db_spec : loc) (tables : list string) : M World string :=
  self <- deref_spec db_spec ;;
  log (EvDescribeTables (spec_uri self) tables) ;;;
  lift_sql (sql_describe_tables (spec_uri self) tables).

Definition dquote : string := String "034"%char EmptyString.
Definition newline : string := String "010"%char EmptyString.

(** [Document(text=f'Definition of {dquote}{table}{dquote} table:\n{description}')] *)
Definition table_document (table description : string) : Document :=
  {| text := "Definition of " ++ dquote ++ table ++ dquote ++ " table:"
             ++ newline ++ description |}.

Definition add_vectors (docs : list Document) (i : PineconeIndex) : PineconeIndex :=
  {| pi_name := pi_name i; pi_dimension := pi_dimension i;
     pi_metric := pi_metric i; pi_vectors := pi_vectors i ++ docs |}.

(** Writing documents into a remote index. *)
Definition pinecone_upsert (idx : string) (docs : list Document) : M World unit :=
  existing <- gets (λ w, map pi_name (pc_indexes (pinecone w))) ;;
  if bool_decide (idx ∈ existing)
  then modify (λ w, set_pinecone
                      {| pc_api_key := pc_api_key (pinecone w);
                         pc_environment := pc_environment (pinecone w);
                         pc_indexes :=
                           map (λ i, if String.eqb (pi_name i) idx
                                     then add_vectors docs i else i)
                               (pc_indexes (pinecone w)) |} w)
  else raise (LibraryError "index not found").

(** [VectorStoreIndex.from_documents(documents=..., storage_context=...)]:
    the documents are written into the vector store of the storage context,
    which is the shared object the cache hands out. *)
Definition VectorStoreIndex_from_documents (documents : list Document)
    (storage_context : loc) : M World VectorStoreIndex :=
  log (EvIndexDocuments storage_context documents) ;;;
  ctx <- deref_storage_context storage_context ;;
  match vector_store ctx with
  | SimpleVectorStore data =>
      modify (λ w, set_storage_contexts
                     (<[storage_context :=
                          {| vector_store := SimpleVectorStore (data ++ documents) |}]>
                        (storage_contexts w)) w)
  | PineconeVectorStore idx => pinecone_upsert idx documents
  end ;;;
  ret {| index_documents := documents; index_storage_context := storage_context |}.

(** The body of the loop over [table_list]. *)
Definition add_table_document (db_spec : loc) (documents : list Document)
    (table : string) : M World (list Document) :=
  description <- describe_tables db_spec [table] ;;
  ret (documents ++ [table_document table description])%list.

Definition get_query_tool_body (key : string * string) : M World QueryEngineTool :=
  let '(vsid, database_id) := key in
  (* This function is cached as a resource, so calling it here is fine *)
  db_spec <- get_database_spec database_id ;;
  table_list <- list_tables db_spec ;;
  documents <- for_each table_list [] (add_table_document db_spec) ;;
  (* Get the storage context to create a vector index with it *)
  storage_context <- get_storage_context vsid ;;
  index <- VectorStoreIndex_from_documents documents storage_context ;;
  let engine := {| engine_index := index |} in
  ret {| query_engine := engine;
         metadata := {| name := "table_query_engine";
                        description := "Contains table descriptions for the database" |} |}.

Definition get_query_tool (vsid database_id : string) : M World QueryEngineTool :=
  cache_resource query_tool_cache set_query_tool_cache
    get_query_tool_body (vsid, database_id).

(** ** get_agent *)

(** [db_spec.set_handler(func)] on the heap object *)
Definition spec_set_handler (db_spec : loc) (func : Handler) : M World unit :=
  self <- deref_spec db_spec ;;
  modify (λ w, set_specs (<[db_spec := set_handler self func]> (specs w)) w).

(** [db_spec.to_tool_list()]: one function tool per entry of the adapter's
    [spec_functions]. *)
Definition to_tool_list (db_spec : loc) : list Tool :=
  [ToolFunction "load_data" db_spec;
   ToolFunction "describe_tables" db_spec;
   ToolFunction "list_tables" db_spec].

(** [OpenAIAgent.from_tools(tools, verbose=...)] *)
Definition OpenAIAgent_from_tools (tools : list Tool) (verb : bool) : M World loc :=
  l <- alloc_agent {| agent_tools := tools; verbose := verb |} ;;
  log (EvNewAgent l) ;;;
  ret l.

(** The body of the loop over [conversation.database_ids]. *)
Definition add_database_tools (vsid : string) (tools : list Tool)
    (database_id : string) : M World (list Tool) :=
  db_spec <- get_database_spec database_id ;;
  query_tool <- get_query_tool vsid database_id ;;
  (* Set a handler that can be called whenever a query is executed *)
  spec_set_handler db_spec (HandlerFunc database_spec_handler) ;;;
  (* Add query tool and database tools *)
  ret ((tools ++ [ToolQueryEngine query_tool]) ++ to_tool_list db_spec)%list.

Definition get_agent_body (key : string * Z) : M World loc :=
  let '(conversation_id, timestamp) := key in
  (* Used for invalidating the cache when we want to force create a new agent *)
  let _ := timestamp in
  conversation <-
    read (λ w, getitem (conversations (session_state w)) conversation_id) ;;
  let vsid := vector_store_id conversation in
  (* Create tools *)
  tools <- for_each (database_ids conversation) [] (add_database_tools vsid) ;;
  (* Create the Agent with our tools *)
  OpenAIAgent_from_tools tools true.

Definition get_agent (conversation_id : string) (timestamp : Z) : M World loc :=
  cache_resource agent_cache set_agent_cache get_agent_body
    (conversation_id, timestamp).

(** ** Vocabulary of the properties *)

(** The agent running the [load_data] tool once per query, in order. *)
Fixpoint run_queries (self : TrackingDatabaseToolSpec) (queries : list string)
  : M World (list (list Document)) :=
  match queries with
  | [] => ret []
  | q :: rest =>
      docs <- load_data self (Some q) ;;
      more <- run_queries self rest ;;
      ret (docs :: more)
  end.

(** [fetches u q db rows db']: on the server state [db], opening a
    connection for [u], executing [q], fetching all rows and closing the
    connection succeeds, yields [rows] and leaves the server in [db']. *)
Inductive fetches (u query : string) (db : DB) (rows : list Row) (db' : DB) : Prop :=
| fetches_intro db1 cursor db2 :
    sql_connect u db = (Returns tt, db1) →
    sql_execute u query db1 = (Returns cursor, db2) →
    sql_fetchall cursor = Returns rows →
    db' = sql_close u db2 →
    fetches u query db rows db'.

(** The same for a sequence of queries run one after the other. *)
Inductive executes (u : string) : list string → DB → list (list Row) → DB → Prop :=
| executes_nil db : executes u [] db [] db
| executes_cons q qs db rows db1 rowss db' :
    fetches u q db rows db1 →
    executes u qs db1 rowss db' →
    executes u (q :: qs) db (rows :: rowss) db'.

(** [describes u tables db ds db']: describing the tables one at a time, in
    order, succeeds with the descriptions [ds]. *)
Inductive describes (u : string) : list string → DB → list string → DB → Prop :=
| describes_nil db : describes u [] db [] db
| describes_cons t ts db d db1 ds db' :
    sql_describe_tables u [t] db = (Returns d, db1) →
    describes u ts db1 ds db' →
    describes u (t :: ts) db (d :: ds) db'.

(** The events a world has logged beyond those of an earlier world. *)
Definition events_since (w w' : World) : list event :=
  drop (length (trace w)) (trace w').

(** Number of adapters constructed for a URI in a run of events. *)
Fixpoint specs_constructed (tr : list event) : nat :=
  match tr with
  | [] => 0%nat
  | EvNewSpec _ _ :: rest => S (specs_constructed rest)
  | _ :: rest => specs_constructed rest
  end.

(** The names [pinecone.list_indexes()] reports. *)
Definition index_names (w : World) : list string :=
  map pi_name (pc_indexes (pinecone w)).

(** The world in which the descriptor stored under [vsid] is [props]. *)
Definition with_vector_store (vsid : string) (props : VectorStoreProps)
    (w : World) : World :=
  set_session_state
    {| vector_stores := <[vsid := props]> (vector_stores (session_state w));
       databases := databases (session_state w);
       conversations := conversations (session_state w);
       current_conversation := current_conversation (session_state w) |} w.

(** [respects R m]: every run of [m], returning or raising, takes a world
    to one related to it by [R]. *)
Definition respects {A} (R : World → World → Prop) (m : M World A) : Prop :=
  ∀ w r w', m w = (r, w') → R w w'.

(** [keeps proj m]: no run of [m] changes the component [proj]. *)
Definition keeps {A X} (proj : World → X) (m : M World A) : Prop :=
  respects (λ w w', proj w' = proj w) m.

(** The callback [get_agent] registers on the adapters. *)
Definition forwarding : Handler := HandlerFunc database_spec_handler.

(** How the builders let the world evolve: the session state is only read,
    addresses are handed out in increasing order, objects stay on the heap
    (an adapter keeps its URI, and the forwarding callback once it has it),
    and cache entries are never replaced or dropped. *)
Record evolves (w w' : World) : Prop := {
  ev_session_state : session_state w' = session_state w;
  ev_next_loc : (next_loc w ≤ next_loc w')%nat;
  ev_specs :
    ∀ l s, specs w !! l = Some s →
           ∃ s', specs w' !! l = Some s'
                 ∧ spec_uri s' = spec_uri s
                 ∧ (handler s = Some forwarding → handler s' = Some forwarding);
  ev_agents : agents w ⊆ agents w';
  ev_storage_context_cache : storage_context_cache w ⊆ storage_context_cache w';
  ev_database_spec_cache : database_spec_cache w ⊆ database_spec_cache w';
  ev_query_tool_cache : query_tool_cache w ⊆ query_tool_cache w';
  ev_agent_cache : agent_cache w ⊆ agent_cache w'
}.

(** [warm vsid ids w]: for each of the databases [ids] the caches of [w]
    hold an adapter, which is on the heap and carries the forwarding
    callback, and a query tool for [vsid]. *)
Definition warm (vsid : string) (ids : list string) (w : World) : Prop :=
  ∀ id, id ∈ ids →
    ∃ l self tool,
      database_spec_cache w !! id = Some l
      ∧ specs w !! l = Some self
      ∧ handler self = Some forwarding
      ∧ query_tool_cache w !! (vsid, id) = Some tool.

(** A query tool as [get_query_tool] builds them: named
    "table_query_engine", over an index built from one document per table,
    each made of the table's name and its description. *)
Definition built_from_tables (tool : QueryEngineTool) : Prop :=
  name (metadata tool) = "table_query_engine"
  ∧ ∃ tables descriptions,
      length descriptions = length tables
      ∧ index_documents (engine_index (query_engine tool)) =
          zip_with table_document tables descriptions.

(** The tools one database contributes to the agent: its query tool, then
    the adapter's own tools. *)
Definition database_tools (entry : loc * QueryEngineTool) : list Tool :=
  ToolQueryEngine (snd entry) :: to_tool_list (fst entry).

(** Well-formed worlds: the allocator has not yet handed out the addresses
    it will hand out next. *)
Record wf_world (w : World) : Prop := {
  wf_specs : ∀ l, is_Some (specs w !! l) → (l < next_loc w)%nat;
  wf_storage_contexts :
    ∀ l, is_Some (storage_contexts w !! l) → (l < next_loc w)%nat;
  wf_agents : ∀ l, is_Some (agents w !! l) → (l < next_loc w)%nat
}.

(** A step from a well-formed world leads to a well-formed world it
    evolves into. *)
Definition advances (w w' : World) : Prop :=
  wf_world w → wf_world w' ∧ evolves w w'.

End Agent.

Arguments World : clear implicits.


(** ** A scripted SQL backend

    A small database server used to run the embedding on concrete inputs:
    it answers the statements it knows from a table of canned results and
    keeps a journal of what it executed. *)
Module Scripted.

Record DB := {
  reachable : bool;
  (** statement text ↦ its result; [None] for a statement that returns no rows *)
  answers : list (string * option (list Row));
  (** table name ↦ schema description *)
  tables : list (string * string);
  journal : list string
}.

Definition check_reachable : M DB unit :=
  λ db, if reachable db then (Returns tt, db)
        else (Raises (LibraryError "could not connect to server"), db).

Fixpoint assoc {V} (k : string) (l : list (string * V)) : option V :=
  match l with
  | [] => None
  | (k', v) :: rest => if String.eqb k k' then Some v else assoc k rest
  end.

Definition run_statement (query : string) : M DB (option (list Row)) :=
  λ db, match assoc query (answers db) with
        | Some r =>
            (Returns r,
             {| reachable := reachable db; answers := answers db;
                tables := tables db; journal := journal db ++ [query] |})
        | None => (Raises (LibraryError "syntax error"), db)
        end.

Definition rows_of (c : option (list Row)) : outcome (list Row) :=
  match c with
  | Some rows => Returns rows
  | None => Raises (LibraryError "This result object does not return rows")
  end.

Definition describe (names : list string) : M DB string :=
  λ db, match mapM (λ n, assoc n (tables db)) names with
        | Some ds => (Returns (String.concat newline ds), db)
        | None => (Raises (LibraryError "no such table"), db)
        end.

#[export] Instance backend : SqlBackend DB := {|
  Cursor := option (list Row);
  sql_open := λ _, check_reachable;
  sql_connect := λ _, check_reachable;
  sql_close := λ _ db, db;
  sql_execute := λ _ query, run_statement query;
  sql_fetchall := rows_of;
  sql_list_tables := λ _ db, (Returns (map fst (tables db)), db);
  sql_describe_tables := λ _ names, describe names
|}.

Definition empty_pinecone : Pinecone :=
  {| pc_api_key := None; pc_environment := None; pc_indexes := [] |}.

(** A world with nothing built yet. *)
Definition initial (ss : SessionState) (db : DB) (pc : Pinecone) : World DB :=
  {| session_state := ss; sql := db; pinecone := pc;
     specs := ∅; storage_contexts := ∅; agents := ∅; next_loc := 0%nat;
     storage_context_cache := ∅; database_spec_cache := ∅;
     query_tool_cache := ∅; agent_cache := ∅; trace := [] |}.

(** The server of the running example: one table, one known query. *)
Definition demo_db : DB :=
  {| reachable := true;
     answers := [("SELECT id, name FROM t",
                  Some [[PyInt 1; PyStr "a"]; [PyInt 2; PyStr "b"]]);
                 ("DELETE FROM t", None)];
     tables := [("t", "CREATE TABLE t (id INTEGER, name TEXT)")];
     journal := [] |}.

Definition demo_session : SessionState :=
  {| vector_stores :=
       {[ "mem" := {| store_type := InMemory; api_key := EmptyString;
                      environment := EmptyString; index_name := EmptyString |};
          "pc" := {| store_type := PineconeDB; api_key := "k";
                     environment := "us-west1"; index_name := "tables" |} ]};
     databases := {[ "db1" := {| uri := "sqlite:///demo.db" |} ]};
     conversations :=
       {[ "c1" := {| vector_store_id := "mem"; database_ids := ["db1"];
                     query_results_queue := []; last_update_timestamp := 0 |};
          "c2" := {| vector_store_id := "pc"; database_ids := ["db1"];
                     query_results_queue := []; last_update_timestamp := 0 |} ]};
     current_conversation := "c1" |}.

Definition demo_world : World DB := initial demo_session demo_db empty_pinecone.

Definition demo_uri : string := "sqlite:///demo.db".
Definition demo_query : string := "SELECT id, name FROM t".
Definition demo_rows : list Row := [[PyInt 1; PyStr "a"]; [PyInt 2; PyStr "b"]].

(** An adapter as [get_agent] leaves it: the forwarding callback is set. *)
Definition demo_spec : TrackingDatabaseToolSpec :=
  set_handler (new_spec demo_uri) (HandlerFunc database_spec_handler).

Definition demo_db_after (n : nat) : DB :=
  {| reachable := true; answers := answers demo_db; tables := tables demo_db;
     journal := replicate n demo_query |}.

Definition demo_hosted : VectorStoreProps :=
  {| store_type := PineconeDB; api_key := "k"; environment := "us-west1";
     index_name := "tables" |}.

Definition demo_tool : QueryEngineTool :=
  {| query_engine :=
       {| engine_index :=
            {| index_documents :=
                 [table_document "t" "CREATE TABLE t (id INTEGER, name TEXT)"];
               index_storage_context := 1%nat |} |};
     metadata :=
       {| name := "table_query_engine";
          description := "Contains table descriptions for the database" |} |}.

(** The error the scripted server gives when it cannot be reached. *)
Definition unreachable : exn := LibraryError "could not connect to server".

(** The demo server when it cannot be reached. *)
Definition offline_db : DB :=
  {| reachable := false; answers := answers demo_db; tables := tables demo_db;
     journal := [] |}.

Definition offline_world : World DB := initial demo_session offline_db empty_pinecone.

(** The demo session with a current conversation that does not exist. *)
Definition lost_session : SessionState :=
  {| vector_stores := vector_stores demo_session;
     databases := databases demo_session;
     conversations := conversations demo_session;
     current_conversation := "gone" |}.

Definition lost_world : World DB := initial lost_session demo_db empty_pinecone.

(** A session in which two conversations name the same database, and a
    third names none. *)
Definition shared_session : SessionState :=
  {| vector_stores := vector_stores demo_session;
     databases := {[ "db1" := {| uri := "sqlite:///demo.db" |};
                     "db2" := {| uri := "sqlite:///other.db" |} ]};
     conversations :=
       {[ "c0" := {| vector_store_id := "missing"; database_ids := [];
                     query_results_queue := []; last_update_timestamp := 0 |};
          "c1" := {| vector_store_id := "mem"; database_ids := ["db1"];
                     query_results_queue := []; last_update_timestamp := 0 |};
          "c2" := {| vector_store_id := "mem"; database_ids := ["db2"; "db1"];
                     query_results_queue := []; last_update_timestamp := 0 |} ]};
     current_conversation := "c2" |}.

Definition shared_world : World DB := initial shared_session demo_db empty_pinecone.

Definition demo_table_document : Document :=
  table_document "t" "CREATE TABLE t (id INTEGER, name TEXT)".

End Scripted.


(** ** A server that is slow to come up

    It refuses the first attempts to open a database and accepts from then
    on; the state is the number of refusals left. *)
Module Flaky.

Definition DB : Type := nat.

Definition flaky_open : M DB unit :=
  λ n, match n with
       | O => (Returns tt, O)
       | S k => (Raises (LibraryError "could not connect to server"), k)
       end.

#[export] Instance flaky_backend : SqlBackend DB := {|
  Cursor := unit;
  sql_open := λ _, flaky_open;
  sql_connect := λ _ n, (Returns tt, n);
  sql_close := λ _ n, n;
  sql_execute := λ _ _ n, (Raises (LibraryError "syntax error"), n);
  sql_fetchall := λ _, Returns [];
  sql_list_tables := λ _ n, (Returns [], n);
  sql_describe_tables := λ _ _ n, (Returns EmptyString, n)
|}.

(** The demo session in front of a server that refuses once. *)
Definition flaky_world : World DB :=
  {| session_state := Scripted.demo_session; sql := 1%nat;
     pinecone := Scripted.empty_pinecone;
     specs := ∅; storage_contexts := ∅; agents := ∅; next_loc := 0%nat;
     storage_context_cache := ∅; database_spec_cache := ∅;
     query_tool_cache := ∅; agent_cache := ∅; trace := [] |}.

End Flaky.

(** * Properties *)

Section AgentProperties.

Context {DB : Type} `{!SqlBackend DB}.

Implicit Types (w : World DB) (self : TrackingDatabaseToolSpec).

Local Open Scope list_scope.

(** ** Stepping through computations *)

Lemma bind_Returns {S A B} (m : M S A) (k : A → M S B) s a s' :
  m s = (Returns a, s') → bind m k s = k a s'.
Proof. intros E. unfold bind. by rewrite E. Qed.

Lemma bind_Raises {S A B} (m : M S A) (k : A → M S B) s e s' :
  m s = (Raises e, s') → bind m k s = (Raises e, s').
Proof. intros E. unfold bind. by rewrite E. Qed.

Lemma bind_Returns_inv {S A B} (m : M S A) (k : A → M S B) s b s' :
  bind m k s = (Returns b, s') →
  ∃ a s1, m s = (Returns a, s1) ∧ k a s1 = (Returns b, s').
Proof.
  unfold bind. destruct (m s) as [[a|e] s1]; [eauto | discriminate].
Qed.

(** Two worlds with the same components are the same world. *)
Lemma world_ext w w' :
  session_state w = session_state w' →
  sql w = sql w' →
  pinecone w = pinecone w' →
  specs w = specs w' →
  storage_contexts w = storage_contexts w' →
  agents w = agents w' →
  next_loc w = next_loc w' →
  storage_context_cache w = storage_context_cache w' →
  database_spec_cache w = database_spec_cache w' →
  query_tool_cache w = query_tool_cache w' →
  agent_cache w = agent_cache w' →
  trace w = trace w' →
  w = w'.
Proof. destruct w, w'. cbn. intros. by subst. Qed.

Ltac world_eq :=
  apply world_ext; cbn; rewrite <- ?app_assoc; try reflexivity.

(** ** load_data *)

(** C1 (as amended): with a [None] query [load_data] always raises and
    runs no SQL, fetches nothing and calls no handler; it does so inside the
    [with] block, after [engine.connect()] was called.  If connecting fails
    that error propagates; otherwise [ValueError] is raised and the
    connection is closed while the block is left. *)
Theorem load_data_None self w :
  let u := spec_uri self in
  match sql_connect u (sql w) with
  | (Returns _, db1) =>
      load_data self None w =
        (Raises (ValueError "A query parameter is necessary to filter the data"),
         set_trace (trace w ++ [EvConnect u; EvClose u])
           (set_sql (sql_close u db1) w))
  | (Raises e, db1) =>
      load_data self None w =
        (Raises e, set_trace (trace w ++ [EvConnect u]) (set_sql db1 w))
  end.
Proof.
  intros u. unfold load_data, with_connection, bind, log, modify, lift_sql, raise.
  cbn. fold u. destruct (sql_connect u (sql w)) as [[[]|e] db1]; cbn.
  - f_equal. world_eq.
  - f_equal.
Qed.

(** A run of [load_data] in which the query is executed, its rows are
    fetched and the registered handler returns. *)
Lemma load_data_handler_returns self query w f db1 cursor db2 rows ss' :
  let u := spec_uri self in
  handler self = Some (HandlerFunc f) →
  sql_connect u (sql w) = (Returns tt, db1) →
  sql_execute u query db1 = (Returns cursor, db2) →
  sql_fetchall cursor = Returns rows →
  f query rows (session_state w) = (Returns tt, ss') →
  load_data self (Some query) w =
    (Returns (map row_document rows),
     set_trace (trace w ++ [EvConnect u; EvExecute u query; EvFetchall;
                             EvHandler query rows; EvClose u])
       (set_session_state ss' (set_sql (sql_close u db2) w))).
Proof.
  intros u Hh Hc He Hf Hcall.
  unfold load_data, with_connection, execute, fetchall, call_handler.
  fold u. rewrite Hh.
  unfold bind, log, modify, lift_sql, lift_outcome, lift_session, ret. cbn.
  rewrite Hc. cbn. rewrite He. cbn. rewrite Hf. cbn. rewrite Hcall. cbn.
  f_equal. world_eq.
Qed.

(** C2: when executing a query fetches the rows [rows] and the registered
    handler returns, [load_data] calls the handler with the query string and
    those rows, and returns one document per row, in row order, whose text
    is the row's column values converted with [str] and joined by ", ". *)
Theorem load_data_documents self query w f db1 cursor db2 rows ss' :
  let u := spec_uri self in
  handler self = Some (HandlerFunc f) →
  sql_connect u (sql w) = (Returns tt, db1) →
  sql_execute u query db1 = (Returns cursor, db2) →
  sql_fetchall cursor = Returns rows →
  f query rows (session_state w) = (Returns tt, ss') →
  let documents :=
    map (λ item, {| text := String.concat ", " (map str item) |}) rows in
  load_data self (Some query) w =
    (Returns documents,
     set_trace (trace w ++ [EvConnect u; EvExecute u query; EvFetchall;
                             EvHandler query rows; EvClose u])
       (set_session_state ss' (set_sql (sql_close u db2) w)))
  ∧ length documents = length rows
  ∧ ∀ i item, rows !! i = Some item →
      documents !! i = Some {| text := String.concat ", " (map str item) |}.
Proof.
  intros u Hh Hc He Hf Hcall documents. split; [|split].
  - exact (load_data_handler_returns self query w f db1 cursor db2 rows ss'
             Hh Hc He Hf Hcall).
  - unfold documents. by rewrite length_map.
  - intros i item Hi. unfold documents. rewrite list_lookup_fmap.
    unfold Row in *. by rewrite Hi.
Qed.

(** The attribute guard [if self.handler:] on an adapter whose [handler]
    attribute was never assigned: the query has been executed and its rows
    fetched when the attribute lookup raises. *)
Lemma load_data_handler_unset self query w db1 cursor db2 rows :
  let u := spec_uri self in
  handler self = None →
  sql_connect u (sql w) = (Returns tt, db1) →
  sql_execute u query db1 = (Returns cursor, db2) →
  sql_fetchall cursor = Returns rows →
  load_data self (Some query) w =
    (Raises (AttributeError "handler"),
     set_trace (trace w ++ [EvConnect u; EvExecute u query; EvFetchall; EvClose u])
       (set_sql (sql_close u db2) w)).
Proof.
  intros u Hh Hc He Hf.
  unfold load_data, with_connection, execute, fetchall.
  fold u. rewrite Hh.
  unfold bind, log, modify, lift_sql, lift_outcome, raise. cbn.
  rewrite Hc. cbn. rewrite He. cbn. rewrite Hf. cbn.
  f_equal. world_eq.
Qed.

(** X16: with the attribute set to Python's [None] (by [set_handler(None)])
    the guard is false: [load_data] skips the handler call, returns the
    documents of the rows and leaves the session state as it was. *)
Lemma load_data_handler_None self query w db1 cursor db2 rows :
  let u := spec_uri self in
  handler self = Some HandlerNone →
  sql_connect u (sql w) = (Returns tt, db1) →
  sql_execute u query db1 = (Returns cursor, db2) →
  sql_fetchall cursor = Returns rows →
  load_data self (Some query) w =
    (Returns (map row_document rows),
     set_trace (trace w ++ [EvConnect u; EvExecute u query; EvFetchall; EvClose u])
       (set_sql (sql_close u db2) w)).
Proof.
  intros u Hh Hc He Hf.
  unfold load_data, with_connection, execute, fetchall.
  fold u. rewrite Hh.
  unfold bind, log, modify, lift_sql, lift_outcome, ret. cbn.
  rewrite Hc. cbn. rewrite He. cbn. rewrite Hf. cbn.
  f_equal. world_eq.
Qed.

(** ** database_spec_handler *)

Lemma database_spec_handler_Some query items ss conversation :
  conversations ss !! current_conversation ss = Some conversation →
  database_spec_handler query items ss =
    (Returns tt,
     {| vector_stores := vector_stores ss;
        databases := databases ss;
        conversations :=
          <[current_conversation ss := append_result conversation (query, items)]>
            (conversations ss);
        current_conversation := current_conversation ss |}).
Proof. intros E. unfold database_spec_handler, getitem. by rewrite E. Qed.

Lemma database_spec_handler_None query items ss :
  conversations ss !! current_conversation ss = None →
  database_spec_handler query items ss =
    (Raises (KeyError (current_conversation ss)), ss).
Proof. intros E. unfold database_spec_handler, getitem. by rewrite E. Qed.


(** ** Queries forwarded to the conversation queue *)

Lemma load_data_forwards self query w conv rows db' :
  let cid := current_conversation (session_state w) in
  handler self = Some (HandlerFunc database_spec_handler) →
  conversations (session_state w) !! cid = Some conv →
  fetches (spec_uri self) query (sql w) rows db' →
  ∃ w', load_data self (Some query) w = (Returns (map row_document rows), w')
      ∧ sql w' = db'
      ∧ vector_stores (session_state w') = vector_stores (session_state w)
      ∧ databases (session_state w') = databases (session_state w)
      ∧ current_conversation (session_state w') = cid
      ∧ conversations (session_state w') =
          <[cid := append_result conv (query, rows)]>
            (conversations (session_state w)).
Proof.
  intros cid Hh Hconv [db1 cursor db2 Hc He Hf ->].
  pose proof (database_spec_handler_Some query rows _ _ Hconv) as Hcall.
  eexists. split.
  - exact (load_data_handler_returns self query w _ _ _ _ _ _ Hh Hc He Hf Hcall).
  - cbn. done.
Qed.


(** ** The resource cache *)

Lemma cache_resource_hit {K V} `{Countable K}
    (store : World DB → gmap K V) set_store (f : K → M (World DB) V) key w v :
  store w !! key = Some v →
  cache_resource store set_store f key w = (Returns v, w).
Proof. intros E. unfold cache_resource. by rewrite E. Qed.

Lemma cache_resource_miss {K V} `{Countable K}
    (store : World DB → gmap K V) set_store (f : K → M (World DB) V) key w :
  store w !! key = None →
  cache_resource store set_store f key w =
    match f key w with
    | (Returns v, w') => (Returns v, set_store (<[key := v]> (store w')) w')
    | (Raises e, w') => (Raises e, w')
    end.
Proof. intros E. unfold cache_resource. by rewrite E. Qed.

Lemma events_since_app w w' evs :
  trace w' = trace w ++ evs → events_since w w' = evs.
Proof. intros E. unfold events_since. rewrite E. by rewrite drop_app_length. Qed.

(** ** get_storage_context *)

Lemma get_storage_context_body_in_memory vsid props w :
  vector_stores (session_state w) !! vsid = Some props →
  get_vector_store_type props = InMemory →
  get_storage_context_body vsid w =
    (Returns (next_loc w),
     set_trace (trace w ++ [EvNewStorageContext (next_loc w)])
       (set_next_loc (S (next_loc w))
          (set_storage_contexts
             (<[next_loc w := {| vector_store := SimpleVectorStore [] |}]>
                (storage_contexts w)) w))).
Proof.
  intros Hp Ht. unfold get_storage_context_body, getitem.
  unfold bind at 1, read. rewrite Hp, Ht.
  unfold StorageContext_from_defaults, alloc_storage_context, bind, ret,
    gets, modify, log. cbn.
  reflexivity.
Qed.

(** C10: for descriptors of in-memory type the storage context does not
    depend on the hosted fields.  Whatever the two descriptors hold as API
    key, environment and index name, the two calls return the same
    reference to equal storage contexts, each wrapping a new, empty
    in-memory vector store; the hosted service is neither called nor
    changed. *)
Theorem get_storage_context_in_memory vsid p1 p2 w :
  storage_context_cache w !! vsid = None →
  get_vector_store_type p1 = InMemory →
  get_vector_store_type p2 = InMemory →
  ∃ l w1 w2,
    get_storage_context vsid (with_vector_store vsid p1 w) = (Returns l, w1)
    ∧ get_storage_context vsid (with_vector_store vsid p2 w) = (Returns l, w2)
    ∧ storage_contexts w1 !! l = Some {| vector_store := SimpleVectorStore [] |}
    ∧ storage_contexts w2 = storage_contexts w1
    ∧ pinecone w1 = pinecone w ∧ pinecone w2 = pinecone w
    ∧ events_since w w1 = [EvNewStorageContext l]
    ∧ events_since w w2 = [EvNewStorageContext l].
Proof.
  intros Hmiss H1 H2. exists (next_loc w).
  assert (Hrun : ∀ p, get_vector_store_type p = InMemory →
    get_storage_context vsid (with_vector_store vsid p w) =
      (Returns (next_loc w),
       set_storage_context_cache
         (<[vsid := next_loc w]> (storage_context_cache w))
         (set_trace (trace w ++ [EvNewStorageContext (next_loc w)])
            (set_next_loc (S (next_loc w))
               (set_storage_contexts
                  (<[next_loc w := {| vector_store := SimpleVectorStore [] |}]>
                     (storage_contexts w)) (with_vector_store vsid p w)))))).
  { intros p Hp. unfold get_storage_context.
    rewrite cache_resource_miss by exact Hmiss.
    rewrite (get_storage_context_body_in_memory vsid p)
      by (cbn; first [apply lookup_insert_eq | exact Hp]).
    reflexivity. }
  eexists _, _. split; [apply (Hrun p1 H1)|]. split; [apply (Hrun p2 H2)|].
  cbn. split; [apply lookup_insert_eq|].
  repeat split; apply events_since_app; reflexivity.
Qed.

(** The hosted branch when the index already exists. *)
Lemma get_storage_context_body_existing vsid props w :
  vector_stores (session_state w) !! vsid = Some props →
  get_vector_store_type props = PineconeDB →
  index_name props ∈ index_names w →
  get_storage_context_body vsid w =
    (Returns (next_loc w),
     set_trace (trace w ++ [EvPineconeInit (api_key props) (environment props);
                             EvPineconeListIndexes;
                             EvPineconeIndex (index_name props);
                             EvNewStorageContext (next_loc w)])
       (set_next_loc (S (next_loc w))
          (set_storage_contexts
             (<[next_loc w :=
                  {| vector_store := PineconeVectorStore (index_name props) |}]>
                (storage_contexts w))
             (set_pinecone
                {| pc_api_key := Some (api_key props);
                   pc_environment := Some (environment props);
                   pc_indexes := pc_indexes (pinecone w) |} w)))).
Proof.
  intros Hp Ht Hin. unfold get_storage_context_body, getitem.
  unfold bind at 1, read. rewrite Hp, Ht.
  unfold pinecone_init, pinecone_list_indexes, pinecone_Index,
    StorageContext_from_defaults, alloc_storage_context, bind, ret, gets,
    modify, log. cbn.
  unfold index_names in Hin. rewrite (bool_decide_eq_true_2 _ Hin). cbn.
  f_equal. world_eq.
Qed.

(** The hosted branch when the index does not exist yet. *)
Lemma get_storage_context_body_absent vsid props w :
  vector_stores (session_state w) !! vsid = Some props →
  get_vector_store_type props = PineconeDB →
  index_name props ∉ index_names w →
  get_storage_context_body vsid w =
    (Returns (next_loc w),
     set_trace (trace w ++ [EvPineconeInit (api_key props) (environment props);
                             EvPineconeListIndexes;
                             EvPineconeCreateIndex (index_name props) 1536 "cosine";
                             EvPineconeIndex (index_name props);
                             EvNewStorageContext (next_loc w)])
       (set_next_loc (S (next_loc w))
          (set_storage_contexts
             (<[next_loc w :=
                  {| vector_store := PineconeVectorStore (index_name props) |}]>
                (storage_contexts w))
             (set_pinecone
                {| pc_api_key := Some (api_key props);
                   pc_environment := Some (environment props);
                   pc_indexes := pc_indexes (pinecone w) ++
                     [{| pi_name := index_name props; pi_dimension := 1536;
                         pi_metric := "cosine"; pi_vectors := [] |}] |} w)))).
Proof.
  intros Hp Ht Hin. unfold get_storage_context_body, getitem.
  unfold bind at 1, read. rewrite Hp, Ht.
  unfold pinecone_init, pinecone_list_indexes, pinecone_create_index,
    pinecone_Index, StorageContext_from_defaults, alloc_storage_context,
    bind, ret, gets, modify, log, raise. cbn.
  unfold index_names in Hin. rewrite (bool_decide_eq_false_2 _ Hin). cbn.
  rewrite (bool_decide_eq_false_2 _ Hin). cbn.
  f_equal. world_eq.
Qed.

(** Once the index exists, building a storage context for it creates
    nothing, whether the call is answered by the cache or runs the body. *)
Lemma get_storage_context_existing vsid props w :
  vector_stores (session_state w) !! vsid = Some props →
  get_vector_store_type props = PineconeDB →
  index_name props ∈ index_names w →
  ∃ l w',
    get_storage_context vsid w = (Returns l, w')
    ∧ pc_indexes (pinecone w') = pc_indexes (pinecone w)
    ∧ ∀ i d m, EvPineconeCreateIndex i d m ∉ events_since w w'.
Proof.
  intros Hp Ht Hin. unfold get_storage_context.
  destruct (storage_context_cache w !! vsid) as [l|] eqn:Hc.
  - exists l, w. rewrite (cache_resource_hit _ _ _ _ _ _ Hc).
    split; [done|]. split; [done|].
    intros i d m. unfold events_since. rewrite drop_all. apply not_elem_of_nil.
  - rewrite cache_resource_miss by exact Hc.
    rewrite (get_storage_context_body_existing _ _ _ Hp Ht Hin).
    eexists _, _. split; [reflexivity|]. cbn. split; [done|].
    intros i d m. erewrite events_since_app by (cbn; reflexivity).
    rewrite !elem_of_cons, elem_of_nil.
    intros [?|[?|[?|[?|[]]]]]; discriminate.
Qed.

(** C6: for a hosted descriptor, [get_storage_context] asks the service for
    its indexes and creates the named index, with dimension 1536 and the
    cosine metric, exactly when the name is not among them; it then binds to
    the named index.  Afterwards the index exists, and any further call for
    the same index name creates nothing and leaves the remote indexes as
    they are. *)
Theorem get_storage_context_hosted vsid props w :
  storage_context_cache w !! vsid = None →
  vector_stores (session_state w) !! vsid = Some props →
  get_vector_store_type props = PineconeDB →
  let idx := index_name props in
  let absent := bool_decide (idx ∉ index_names w) in
  ∃ l w',
    get_storage_context vsid w = (Returns l, w')
    ∧ storage_contexts w' !! l =
        Some {| vector_store := PineconeVectorStore idx |}
    ∧ events_since w w' =
        [EvPineconeInit (api_key props) (environment props);
         EvPineconeListIndexes]
        ++ (if absent then [EvPineconeCreateIndex idx 1536 "cosine"] else [])
        ++ [EvPineconeIndex idx; EvNewStorageContext l]
    ∧ pc_indexes (pinecone w') =
        pc_indexes (pinecone w)
        ++ (if absent
            then [{| pi_name := idx; pi_dimension := 1536;
                     pi_metric := "cosine"; pi_vectors := [] |}]
            else [])
    ∧ idx ∈ index_names w'
    ∧ ∀ vsid2 props2,
        vector_stores (session_state w) !! vsid2 = Some props2 →
        get_vector_store_type props2 = PineconeDB →
        index_name props2 = idx →
        ∃ l2 w'',
          get_storage_context vsid2 w' = (Returns l2, w'')
          ∧ pc_indexes (pinecone w'') = pc_indexes (pinecone w')
          ∧ ∀ i d m, EvPineconeCreateIndex i d m ∉ events_since w' w''.
Proof.
  intros Hmiss Hp Ht idx absent.
  assert (Hagain : ∀ w', session_state w' = session_state w →
            idx ∈ index_names w' →
            ∀ vsid2 props2,
              vector_stores (session_state w) !! vsid2 = Some props2 →
              get_vector_store_type props2 = PineconeDB →
              index_name props2 = idx →
              ∃ l2 w'',
                get_storage_context vsid2 w' = (Returns l2, w'')
                ∧ pc_indexes (pinecone w'') = pc_indexes (pinecone w')
                ∧ ∀ i d m, EvPineconeCreateIndex i d m ∉ events_since w' w'').
  { intros w' Hss Hin vsid2 props2 Hp2 Ht2 Hidx.
    apply (get_storage_context_existing vsid2 props2); [by rewrite Hss|done|].
    by rewrite Hidx. }
  unfold get_storage_context. rewrite cache_resource_miss by exact Hmiss.
  subst absent. destruct (decide (idx ∈ index_names w)) as [Hin|Hout].
  - rewrite (get_storage_context_body_existing _ _ _ Hp Ht Hin).
    rewrite bool_decide_eq_false_2 by (intros Hn; by apply Hn).
    eexists _, _. split; [reflexivity|]. cbn.
    split; [apply lookup_insert_eq|].
    split; [apply events_since_app; reflexivity|].
    split; [by rewrite app_nil_r|].
    split; [exact Hin|].
    apply Hagain; [reflexivity | exact Hin].
  - rewrite (get_storage_context_body_absent _ _ _ Hp Ht Hout).
    rewrite bool_decide_eq_true_2 by exact Hout.
    assert (Hnow : idx ∈ map pi_name
              (pc_indexes (pinecone w) ++
                 [{| pi_name := idx; pi_dimension := 1536;
                     pi_metric := "cosine"; pi_vectors := [] |}])).
    { rewrite map_app. apply elem_of_app. right. cbn. apply elem_of_cons. by left. }
    eexists _, _. split; [reflexivity|]. cbn.
    split; [apply lookup_insert_eq|].
    split; [apply events_since_app; reflexivity|].
    split; [reflexivity|].
    split; [exact Hnow|].
    apply Hagain; [reflexivity | exact Hnow].
Qed.

(** ** Relations respected along a computation *)

Section Respects.

Context {R : World DB → World DB → Prop} {HR : PreOrder R}.

Lemma respects_ret {A} (a : A) : respects R (ret a).
Proof. intros w r w' [= <- <-]. reflexivity. Qed.

Lemma respects_raise {A} e : respects R (raise (A := A) e).
Proof. intros w r w' [= <- <-]. reflexivity. Qed.

Lemma respects_gets {A} (f : World DB → A) : respects R (gets f).
Proof. intros w r w' [= <- <-]. reflexivity. Qed.

Lemma respects_read {A} (f : World DB → outcome A) : respects R (read f).
Proof. intros w r w' [= <- <-]. reflexivity. Qed.

Lemma respects_lift_outcome {A} (o : outcome A) : respects R (lift_outcome o).
Proof. intros w r w' [= <- <-]. reflexivity. Qed.

Lemma respects_modify (f : World DB → World DB) :
  (∀ w, R w (f w)) → respects R (modify f).
Proof. intros Hf w r w' [= <- <-]. apply Hf. Qed.

Lemma respects_bind {A B} (m : M (World DB) A) (k : A → M (World DB) B) :
  respects R m → (∀ a, respects R (k a)) → respects R (bind m k).
Proof.
  intros Hm Hk w r w'. unfold bind.
  destruct (m w) as [[a|e] w1] eqn:E.
  - intros Hrun. transitivity w1; [exact (Hm _ _ _ E) | exact (Hk _ _ _ _ Hrun)].
  - intros [= <- <-]. exact (Hm _ _ _ E).
Qed.

Lemma respects_for_each {A B} (xs : list A) (acc : B)
    (body : B → A → M (World DB) B) :
  (∀ b x, respects R (body b x)) → respects R (for_each xs acc body).
Proof.
  intros Hbody. revert acc.
  induction xs as [|x xs IH]; intros acc; cbn [for_each].
  - apply respects_ret.
  - apply respects_bind; [apply Hbody | intros b; apply IH].
Qed.

Lemma respects_log e :
  (∀ w t, R w (set_trace t w)) → respects R (log e).
Proof. intros H. apply respects_modify. intros w. apply H. Qed.

Lemma respects_lift_sql {A} (m : M DB A) :
  (∀ w db, R w (set_sql db w)) → respects R (lift_sql m).
Proof.
  intros H w r w'. unfold lift_sql. destruct (m (sql w)) as [r1 db].
  intros [= <- <-]. apply H.
Qed.

(** A cached call respects [R] when the function does and storing the
    result does. *)
Lemma respects_cache_resource {K V} `{Countable K}
    (store : World DB → gmap K V) set_store (f : K → M (World DB) V) key :
  respects R (f key) →
  (∀ w v, store w !! key = None →
          R w (set_store (<[key := v]> (store w)) w)) →
  keeps store (f key) →
  respects R (cache_resource store set_store f key).
Proof.
  intros Hf Hset Hkeep w r w'. unfold cache_resource.
  destruct (store w !! key) as [v|] eqn:E.
  - intros [= <- <-]. reflexivity.
  - destruct (f key w) as [[v|e] w1] eqn:Erun.
    + intros [= <- <-]. transitivity w1; [exact (Hf _ _ _ Erun)|].
      apply Hset. by rewrite (Hkeep _ _ _ Erun).
    + intros [= <- <-]. exact (Hf _ _ _ Erun).
Qed.

End Respects.

#[local] Instance keeps_preorder {X} (proj : World DB → X) :
  PreOrder (λ w w', proj w' = proj w).
Proof. split; [by intros w | intros w1 w2 w3 H1 H2; by rewrite H2]. Qed.

#[local] Instance evolves_preorder : PreOrder (@evolves DB).
Proof.
  split.
  - intros w. split; try done. intros l s Hs. by exists s.
  - intros w1 w2 w3 [] []. split.
    + congruence.
    + lia.
    + intros l s Hs. destruct (ev_specs0 _ _ Hs) as (s' & Hs' & Hu & Hh).
      destruct (ev_specs1 _ _ Hs') as (s'' & Hs'' & Hu' & Hh').
      exists s''. split; [done|]. split; [congruence | auto].
    + by transitivity (agents w2).
    + by transitivity (storage_context_cache w2).
    + by transitivity (database_spec_cache w2).
    + by transitivity (query_tool_cache w2).
    + by transitivity (agent_cache w2).
Qed.

(** ** What the builders change and what they keep *)

Create HintDb builders.

#[local] Hint Unfold pinecone_init pinecone_list_indexes pinecone_create_index
  pinecone_Index pinecone_upsert StorageContext_from_defaults
  TrackingDatabaseToolSpec_new deref_spec deref_storage_context list_tables
  describe_tables VectorStoreIndex_from_documents spec_set_handler
  add_table_document add_database_tools
  OpenAIAgent_from_tools get_storage_context get_database_spec get_query_tool
  get_agent : builders.

Create HintDb own_cache.

Ltac respects_step inst :=
  lazymatch goal with
  | |- respects _ (ret _) => apply (respects_ret (HR := inst))
  | |- respects _ (raise _) => apply (respects_raise (HR := inst))
  | |- respects _ (gets _) => apply (respects_gets (HR := inst))
  | |- respects _ (read _) => apply (respects_read (HR := inst))
  | |- respects _ (lift_outcome _) => apply (respects_lift_outcome (HR := inst))
  | |- respects _ (bind _ _) => apply (respects_bind (HR := inst)); [|intros ?]
  | |- respects _ (for_each _ _ _) =>
      apply (respects_for_each (HR := inst)); intros ? ?
  | |- respects _ (log _) => apply respects_log; intros ? ?
  | |- respects _ (lift_sql _) => apply respects_lift_sql; intros ? ?
  | |- respects _ (modify _) => apply respects_modify; intros ?
  | |- respects _ (cache_resource _ _ _ _) =>
      apply (respects_cache_resource (HR := inst));
      [ | intros ? ? ? | solve [auto with own_cache] ]
  | |- respects _ (get_storage_context_body _) => unfold get_storage_context_body
  | |- respects _ (get_database_spec_body _) => unfold get_database_spec_body
  | |- respects _ (get_query_tool_body _) => unfold get_query_tool_body
  | |- respects _ (get_agent_body _) => unfold get_agent_body
  | |- respects _ (alloc_spec _) => intros ? ? ? [= <- <-]
  | |- respects _ (alloc_storage_context _) => intros ? ? ? [= <- <-]
  | |- respects _ (alloc_agent _) => intros ? ? ? [= <- <-]
  | |- respects _ (let '(_, _) := ?x in _) => destruct x
  | |- respects _ (match ?x with _ => _ end) => destruct x
  | |- respects _ (if ?x then _ else _) => destruct x
  end.

(** Components a step does not write are kept. *)
Ltac keeps_go :=
  lazymatch goal with
  | |- keeps ?proj _ =>
      unfold keeps;
      repeat (first [ progress autounfold with builders
                    | respects_step (keeps_preorder proj)
                    | reflexivity ])
  end.

Lemma keeps_get_storage_context_body vsid :
  keeps (DB := DB) storage_context_cache (get_storage_context_body vsid).
Proof. keeps_go. Qed.

Lemma keeps_get_database_spec_body database_id :
  keeps (DB := DB) database_spec_cache (get_database_spec_body database_id).
Proof. keeps_go. Qed.

#[local] Hint Resolve keeps_get_storage_context_body
  keeps_get_database_spec_body : own_cache.

Lemma keeps_get_query_tool_body key :
  keeps (DB := DB) query_tool_cache (get_query_tool_body key).
Proof. keeps_go. Qed.

#[local] Hint Resolve keeps_get_query_tool_body : own_cache.

Lemma keeps_get_agent_body key :
  keeps (DB := DB) agent_cache (get_agent_body key).
Proof. keeps_go. Qed.

#[local] Hint Resolve keeps_get_agent_body : own_cache.

(** None of the builders writes the session state. *)
Lemma keeps_session_state_get_agent cid t :
  keeps (DB := DB) session_state (get_agent cid t).
Proof. keeps_go. Qed.

(** ** Well-formedness and evolution *)

#[local] Instance advances_preorder : PreOrder (@advances DB).
Proof.
  split.
  - intros w Hwf. split; [done | reflexivity].
  - intros w1 w2 w3 H12 H23 Hwf.
    destruct (H12 Hwf) as [Hwf2 E12]. destruct (H23 Hwf2) as [Hwf3 E23].
    split; [done | by transitivity w2].
Qed.

Lemma wf_fresh_spec w : wf_world w → specs w !! next_loc w = None.
Proof.
  intros Hwf. destruct (specs w !! next_loc w) eqn:E; [|done].
  pose proof (wf_specs w Hwf (next_loc w) (mk_is_Some _ _ E)). lia.
Qed.

Lemma wf_fresh_storage_context w :
  wf_world w → storage_contexts w !! next_loc w = None.
Proof.
  intros Hwf. destruct (storage_contexts w !! next_loc w) eqn:E; [|done].
  pose proof (wf_storage_contexts w Hwf (next_loc w) (mk_is_Some _ _ E)). lia.
Qed.

Lemma wf_fresh_agent w : wf_world w → agents w !! next_loc w = None.
Proof.
  intros Hwf. destruct (agents w !! next_loc w) eqn:E; [|done].
  pose proof (wf_agents w Hwf (next_loc w) (mk_is_Some _ _ E)). lia.
Qed.

Ltac wf_alloc Hwf :=
  let l := fresh "l" in
  let Hl := fresh "Hl" in
  destruct Hwf as [Hs Hc Ha]; constructor; cbn; intros l Hl;
  try (apply lookup_insert_is_Some in Hl; destruct Hl as [<-|[_ Hl]]; [lia|]);
  first [ specialize (Hs _ Hl) | specialize (Hc _ Hl) | specialize (Ha _ Hl) ];
  lia.

Lemma advances_alloc_spec s : respects (@advances DB) (alloc_spec s).
Proof.
  intros w r w' [= <- <-] Hwf. pose proof (wf_fresh_spec w Hwf) as Hfresh.
  split; [wf_alloc Hwf|].
  constructor; cbn; try done; [lia|].
  intros l s0 Hl. exists s0. split; [|done].
  rewrite lookup_insert_ne; [done|]. intros <-. congruence.
Qed.

Lemma advances_alloc_storage_context c :
  respects (@advances DB) (alloc_storage_context c).
Proof.
  intros w r w' [= <- <-] Hwf.
  split; [wf_alloc Hwf|].
  constructor; cbn; try done; [lia|]. intros l s0 Hl. by exists s0.
Qed.

Lemma advances_alloc_agent a : respects (@advances DB) (alloc_agent a).
Proof.
  intros w r w' [= <- <-] Hwf. pose proof (wf_fresh_agent w Hwf) as Hfresh.
  split; [wf_alloc Hwf|].
  constructor; cbn; try done; [lia| |by apply insert_subseteq].
  intros l s0 Hl. by exists s0.
Qed.

Ltac advances_leaf :=
  let Hwf := fresh "Hwf" in
  intros Hwf; split;
  [ destruct Hwf; constructor; cbn; assumption
  | constructor; cbn; try done; try (by apply insert_subseteq);
    intros; eauto ].

Lemma advances_spec_set_handler l :
  respects (@advances DB) (spec_set_handler l forwarding).
Proof.
  intros w r w'. unfold spec_set_handler, deref_spec, bind, read, modify.
  destruct (specs w !! l) as [self|] eqn:E; intros [= <- <-]; [|reflexivity].
  intros Hwf. split.
  - destruct Hwf as [Hs Hc Ha]. constructor; cbn; [|done|done].
    intros l' Hl'. apply lookup_insert_is_Some in Hl'.
    destruct Hl' as [<-|[_ Hl']]; [|by apply Hs].
    apply Hs. by eexists.
  - constructor; cbn; try done.
    intros l' s Hl'. destruct (decide (l' = l)) as [->|Hne].
    + rewrite lookup_insert_eq. eexists. split; [done|]. cbn.
      split; [congruence | done].
    + rewrite lookup_insert_ne by done. by exists s.
Qed.

Lemma advances_from_documents docs sc :
  respects (@advances DB) (VectorStoreIndex_from_documents docs sc).
Proof.
  intros w r w'.
  unfold VectorStoreIndex_from_documents, deref_storage_context, pinecone_upsert,
    bind, read, modify, log, gets, ret, raise. cbn.
  destruct (storage_contexts w !! sc) as [[[data|idx]]|] eqn:E; cbn.
  - intros [= <- <-] Hwf. split.
    + destruct Hwf as [Hs Hc Ha]. constructor; cbn; [done| |done].
      intros l' Hl'. apply lookup_insert_is_Some in Hl'.
      destruct Hl' as [<-|[_ Hl']]; [|by apply Hc].
      apply Hc. by eexists.
    + constructor; cbn; try done. intros; eauto.
  - destruct (bool_decide _); cbn; intros [= <- <-]; advances_leaf.
  - intros [= <- <-]. advances_leaf.
Qed.

Ltac advances_go :=
  repeat (first [ apply advances_alloc_spec
                | apply advances_alloc_storage_context
                | apply advances_alloc_agent
                | apply advances_spec_set_handler
                | apply advances_from_documents
                | respects_step advances_preorder
                | progress autounfold with builders
                | advances_leaf ]).

(** Every builder takes a well-formed world to a well-formed world it
    evolves into, whether it returns or raises. *)
Lemma advances_get_storage_context vsid :
  respects (@advances DB) (get_storage_context vsid).
Proof. advances_go. Qed.

Lemma advances_get_database_spec database_id :
  respects (@advances DB) (get_database_spec database_id).
Proof. advances_go. Qed.

Lemma advances_get_query_tool vsid database_id :
  respects (@advances DB) (get_query_tool vsid database_id).
Proof. advances_go. Qed.

Lemma advances_get_agent cid t :
  respects (@advances DB) (get_agent cid t).
Proof. advances_go. Qed.

(** ** Cached instances *)

Lemma cache_resource_inv {K V} `{Countable K}
    (store : World DB → gmap K V) set_store (f : K → M (World DB) V) key w v w' :
  cache_resource store set_store f key w = (Returns v, w') →
  (store w !! key = Some v ∧ w' = w)
  ∨ (store w !! key = None
     ∧ ∃ w1, f key w = (Returns v, w1)
             ∧ w' = set_store (<[key := v]> (store w1)) w1).
Proof.
  unfold cache_resource. destruct (store w !! key) as [v0|] eqn:E.
  - intros [= -> ->]. by left.
  - destruct (f key w) as [[v0|e] w1] eqn:Erun; intros [= <- <-].
    right. split; [done|]. by exists w1.
Qed.

Lemma get_database_spec_stored database_id w l w' :
  get_database_spec database_id w = (Returns l, w') →
  database_spec_cache w' !! database_id = Some l.
Proof.
  intros Hrun. apply cache_resource_inv in Hrun.
  destruct Hrun as [[Hhit ->]|(_ & w1 & _ & ->)]; [done|].
  cbn. apply lookup_insert_eq.
Qed.

Lemma get_query_tool_stored vsid database_id w tool w' :
  get_query_tool vsid database_id w = (Returns tool, w') →
  query_tool_cache w' !! (vsid, database_id) = Some tool.
Proof.
  intros Hrun. apply cache_resource_inv in Hrun.
  destruct Hrun as [[Hhit ->]|(_ & w1 & _ & ->)]; [done|].
  cbn. apply lookup_insert_eq.
Qed.

Lemma get_agent_stored cid t w a w' :
  get_agent cid t w = (Returns a, w') →
  agent_cache w' !! (cid, t) = Some a.
Proof.
  intros Hrun. apply cache_resource_inv in Hrun.
  destruct Hrun as [[Hhit ->]|(_ & w1 & _ & ->)]; [done|].
  cbn. apply lookup_insert_eq.
Qed.

(** What constructing an adapter does. *)
Lemma get_database_spec_body_inv database_id w l w' :
  get_database_spec_body database_id w = (Returns l, w') →
  ∃ props db1,
    databases (session_state w) !! database_id = Some props
    ∧ sql_open (uri props) (sql w) = (Returns tt, db1)
    ∧ l = next_loc w
    ∧ w' = set_trace (trace w ++ [EvNewSpec l (uri props)])
             (set_next_loc (S l)
                (set_specs (<[l := new_spec (uri props)]> (specs w))
                   (set_sql db1 w))).
Proof.
  unfold get_database_spec_body, TrackingDatabaseToolSpec_new, getitem.
  unfold bind at 1, read.
  destruct (databases (session_state w) !! database_id) as [props|] eqn:E;
    [|discriminate].
  unfold bind, lift_sql, alloc_spec, log, modify, ret. cbn.
  destruct (sql_open (uri props) (sql w)) as [[[]|e] db1] eqn:Eopen; cbn;
    [|discriminate].
  intros [= <- <-]. exists props, db1. repeat split; try done.
Qed.

Lemma spec_set_handler_inv l func w w' :
  spec_set_handler l func w = (Returns tt, w') →
  ∃ self, specs w !! l = Some self
          ∧ w' = set_specs (<[l := set_handler self func]> (specs w)) w.
Proof.
  unfold spec_set_handler, deref_spec, bind, read, modify.
  destruct (specs w !! l) as [self|]; [|discriminate].
  intros [= <-]. by exists self.
Qed.

Lemma OpenAIAgent_from_tools_run tools verb w :
  OpenAIAgent_from_tools tools verb w =
    (Returns (next_loc w),
     set_trace (trace w ++ [EvNewAgent (next_loc w)])
       (set_next_loc (S (next_loc w))
          (set_agents
             (<[next_loc w := {| agent_tools := tools; verbose := verb |}]>
                (agents w)) w))).
Proof. reflexivity. Qed.

(** ** The loop of get_agent *)

Lemma warm_evolves vsid ids w w' :
  evolves w w' → warm vsid ids w → warm vsid ids w'.
Proof.
  intros Hev Hwarm id Hid.
  destruct (Hwarm id Hid) as (l & self & tool & Hl & Hself & Hh & Htool).
  destruct (ev_specs _ _ Hev _ _ Hself) as (self' & Hself' & _ & Hh').
  exists l, self', tool. split; [|split; [done|split; [by apply Hh'|]]].
  - by apply (lookup_weaken _ _ _ _ Hl), ev_database_spec_cache.
  - by apply (lookup_weaken _ _ _ _ Htool), ev_query_tool_cache.
Qed.

Lemma advances_add_database_tools vsid tools database_id :
  respects (@advances DB) (add_database_tools vsid tools database_id).
Proof. advances_go. Qed.

Lemma advances_loop vsid ids tools :
  respects (@advances DB) (for_each ids tools (add_database_tools vsid)).
Proof.
  apply (respects_for_each (HR := advances_preorder)).
  intros. apply advances_add_database_tools.
Qed.

(** One successful round of the loop leaves the database's adapter and
    query tool in the caches. *)
Lemma add_database_tools_warm vsid tools database_id w tools' w' :
  wf_world w →
  add_database_tools vsid tools database_id w = (Returns tools', w') →
  warm vsid [database_id] w'.
Proof.
  intros Hwf Hrun. unfold add_database_tools in Hrun.
  apply bind_Returns_inv in Hrun as (l & wa & Hspec & Hrun).
  apply bind_Returns_inv in Hrun as (tool & wb & Htool & Hrun).
  apply bind_Returns_inv in Hrun as ([] & wc & Hset & Hrun).
  injection Hrun as _ <-.
  destruct (advances_get_database_spec _ _ _ _ Hspec Hwf) as [Hwfa _].
  destruct (advances_get_query_tool _ _ _ _ _ Htool Hwfa) as [_ Hev].
  apply spec_set_handler_inv in Hset as (self & Hself & ->).
  intros id Hid. apply list_elem_of_singleton in Hid as ->.
  exists l, (set_handler self forwarding), tool.
  cbn. split; [|split; [|split]].
  - apply (lookup_weaken (database_spec_cache wa)); [|apply Hev].
    by apply get_database_spec_stored in Hspec.
  - apply lookup_insert_eq.
  - reflexivity.
  - by apply get_query_tool_stored in Htool.
Qed.

Lemma loop_warm vsid ids tools w tools' w' :
  wf_world w →
  for_each ids tools (add_database_tools vsid) w = (Returns tools', w') →
  warm vsid ids w'.
Proof.
  revert tools w. induction ids as [|id ids IH]; intros tools w Hwf Hrun.
  - intros id Hid. by apply elem_of_nil in Hid.
  - cbn [for_each] in Hrun.
    apply bind_Returns_inv in Hrun as (tools1 & w1 & Hstep & Hrest).
    destruct (advances_add_database_tools _ _ _ _ _ _ Hstep Hwf) as [Hwf1 _].
    destruct (advances_loop _ _ _ _ _ _ Hrest Hwf1) as [_ Hev].
    pose proof (add_database_tools_warm _ _ _ _ _ _ Hwf Hstep) as Hhere.
    pose proof (IH _ _ Hwf1 Hrest) as Hthere.
    intros id' Hid'. apply elem_of_cons in Hid' as [->|Hid'].
    + apply (warm_evolves _ _ _ _ Hev Hhere). by apply list_elem_of_singleton.
    + by apply Hthere.
Qed.

(** With warm caches a round of the loop constructs nothing: both calls are
    answered by the caches, and only the adapter's handler is assigned. *)
Lemma loop_runs_warm vsid ids tools w :
  warm vsid ids w →
  ∃ tools' sp,
    for_each ids tools (add_database_tools vsid) w = (Returns tools', set_specs sp w).
Proof.
  revert tools w. induction ids as [|id ids IH]; intros tools w Hwarm.
  - exists tools, (specs w). cbn. unfold ret. f_equal. world_eq.
  - destruct (Hwarm id) as (l & self & tool & Hl & Hself & _ & Htool);
      [apply elem_of_cons; by left|].
    set (w1 := set_specs (<[l := set_handler self forwarding]> (specs w)) w).
    assert (Hstep : add_database_tools vsid tools id w =
              (Returns ((tools ++ [ToolQueryEngine tool]) ++ to_tool_list l), w1)).
    { unfold add_database_tools, get_database_spec, get_query_tool.
      rewrite (bind_Returns _ _ _ _ _ (cache_resource_hit _ _ _ _ _ _ Hl)).
      rewrite (bind_Returns _ _ _ _ _ (cache_resource_hit _ _ _ _ _ _ Htool)).
      unfold spec_set_handler, deref_spec, bind, read, modify, ret.
      by rewrite Hself. }
    assert (Hwarm1 : warm vsid ids w1).
    { intros id' Hid'.
      destruct (Hwarm id') as (l' & self' & tool' & Hl' & Hself' & Hh' & Htool');
        [apply elem_of_cons; by right|].
      destruct (decide (l' = l)) as [->|Hne].
      - eexists l, _, tool'. cbn. split; [done|].
        split; [apply lookup_insert_eq|]. by split.
      - exists l', self', tool'. cbn. split; [done|].
        split; [by rewrite lookup_insert_ne|]. by split. }
    destruct (IH ((tools ++ [ToolQueryEngine tool]) ++ to_tool_list l) w1 Hwarm1)
      as (tools' & sp & Hrest).
    exists tools', sp. cbn [for_each].
    rewrite (bind_Returns _ _ _ _ _ Hstep), Hrest.
    reflexivity.
Qed.

(** The loop builds no agent. *)
Lemma loop_keeps_agents vsid ids tools w r w' :
  for_each ids tools (add_database_tools vsid) w = (r, w') →
  agents w' = agents w.
Proof.
  revert w r w'.
  change (keeps (DB := DB) agents (for_each ids tools (add_database_tools vsid))).
  keeps_go.
Qed.

Lemma get_agent_body_inv cid t w a w' :
  get_agent_body (cid, t) w = (Returns a, w') →
  ∃ conversation tools wl,
    conversations (session_state w) !! cid = Some conversation
    ∧ for_each (database_ids conversation) []
        (add_database_tools (vector_store_id conversation)) w
      = (Returns tools, wl)
    ∧ a = next_loc wl
    ∧ w' = set_trace (trace wl ++ [EvNewAgent a])
             (set_next_loc (S a)
                (set_agents
                   (<[a := {| agent_tools := tools; verbose := true |}]>
                      (agents wl)) wl)).
Proof.
  unfold get_agent_body, getitem. unfold bind at 1, read.
  destruct (conversations (session_state w) !! cid) as [conversation|];
    [|discriminate].
  intros Hrun. apply bind_Returns_inv in Hrun as (tools & wl & Hloop & Hnew).
  rewrite OpenAIAgent_from_tools_run in Hnew. injection Hnew as <- <-.
  by exists conversation, tools, wl.
Qed.

Lemma get_agent_warm cid t w a w' :
  wf_world w →
  agent_cache w !! (cid, t) = None →
  get_agent cid t w = (Returns a, w') →
  ∃ conversation,
    conversations (session_state w) !! cid = Some conversation
    ∧ warm (vector_store_id conversation) (database_ids conversation) w'.
Proof.
  intros Hwf Hmiss Hrun. apply cache_resource_inv in Hrun.
  destruct Hrun as [[Hhit _]|(_ & wb & Hbody & ->)]; [congruence|].
  apply get_agent_body_inv in Hbody
    as (conversation & tools & wl & Hconv & Hloop & -> & ->).
  exists conversation. split; [exact Hconv|].
  exact (loop_warm _ _ _ _ _ _ Hwf Hloop).
Qed.

(** X18: what [get_agent] leaves behind when it builds an agent.  Every
    database of the conversation has its adapter in the cache and on the
    heap, with [database_spec_handler] registered as its handler, and its
    query tool for the conversation's vector store is cached. *)
Theorem get_agent_binds_handler cid t w a w' conversation database_id :
  wf_world w →
  agent_cache w !! (cid, t) = None →
  get_agent cid t w = (Returns a, w') →
  conversations (session_state w) !! cid = Some conversation →
  database_id ∈ database_ids conversation →
  ∃ l self tool,
    database_spec_cache w' !! database_id = Some l
    ∧ specs w' !! l = Some self
    ∧ handler self = Some (HandlerFunc database_spec_handler)
    ∧ query_tool_cache w' !! (vector_store_id conversation, database_id)
      = Some tool.
Proof.
  intros Hwf Hmiss Hrun Hconv Hid.
  destruct (get_agent_warm _ _ _ _ _ Hwf Hmiss Hrun) as (conv' & Hconv' & Hwarm).
  assert (conv' = conversation) as -> by congruence.
  exact (Hwarm database_id Hid).
Qed.


(** ** The timestamp of get_agent *)

(** C5: the timestamp plays no part in building the agent.  The function
    under the cache does the same for any two timestamps; and through the
    cache, two calls that both miss have the same outcome and leave the
    same world, but for the key under which the agent is stored. *)
Theorem get_agent_ignores_timestamp cid t1 t2 w :
  get_agent_body (cid, t1) w = get_agent_body (cid, t2) w
  ∧ (agent_cache w !! (cid, t1) = None →
     agent_cache w !! (cid, t2) = None →
     ∃ r w',
       let stored t :=
         match r with
         | Returns a => set_agent_cache (<[(cid, t) := a]> (agent_cache w')) w'
         | Raises _ => w'
         end in
       get_agent cid t1 w = (r, stored t1)
       ∧ get_agent cid t2 w = (r, stored t2)).
Proof.
  split; [reflexivity|]. intros H1 H2.
  destruct (get_agent_body (cid, t1) w) as [r w'] eqn:E.
  exists r, w'. cbn zeta. unfold get_agent.
  rewrite !cache_resource_miss by assumption.
  change (get_agent_body (cid, t2) w) with (get_agent_body (cid, t1) w).
  rewrite E. by destruct r.
Qed.

(** ** get_query_tool *)

Lemma list_tables_inv l w tables w' :
  list_tables l w = (Returns tables, w') →
  ∃ self db',
    specs w !! l = Some self
    ∧ sql_list_tables (spec_uri self) (sql w) = (Returns tables, db')
    ∧ w' = set_sql db' (set_trace (trace w ++ [EvListTables (spec_uri self)]) w).
Proof.
  unfold list_tables, deref_spec, bind, read, log, modify, lift_sql. cbn.
  destruct (specs w !! l) as [self|]; [|discriminate]. cbn.
  destruct (sql_list_tables (spec_uri self) (sql w)) as [[ts|e] db'] eqn:E;
    intros [= <- <-].
  by exists self, db'.
Qed.

Lemma describe_tables_inv l names w d w' :
  describe_tables l names w = (Returns d, w') →
  ∃ self db',
    specs w !! l = Some self
    ∧ sql_describe_tables (spec_uri self) names (sql w) = (Returns d, db')
    ∧ w' = set_sql db'
             (set_trace (trace w ++ [EvDescribeTables (spec_uri self) names]) w).
Proof.
  unfold describe_tables, deref_spec, bind, read, log, modify, lift_sql. cbn.
  destruct (specs w !! l) as [self|]; [|discriminate]. cbn.
  destruct (sql_describe_tables (spec_uri self) names (sql w))
    as [[ts|e] db'] eqn:E; intros [= <- <-].
  by exists self, db'.
Qed.

(** The loop over the tables describes them one by one and appends one
    document per table. *)
Lemma describe_loop l self tables acc w documents w' :
  specs w !! l = Some self →
  for_each tables acc (add_table_document l) w = (Returns documents, w') →
  ∃ descriptions,
    describes (spec_uri self) tables (sql w) descriptions (sql w')
    ∧ documents = acc ++ zip_with table_document tables descriptions.
Proof.
  revert acc w. induction tables as [|t ts IH]; intros acc w Hself Hrun.
  - injection Hrun as <- <-. exists []. split; [constructor|].
    cbn. by rewrite app_nil_r.
  - cbn [for_each] in Hrun.
    apply bind_Returns_inv in Hrun as (acc1 & w1 & Hstep & Hrest).
    unfold add_table_document in Hstep.
    apply bind_Returns_inv in Hstep as (d & wd & Hdesc & Hret).
    injection Hret as <- <-.
    apply describe_tables_inv in Hdesc as (self' & db' & Hself' & Hd & ->).
    assert (self' = self) as -> by congruence.
    assert (Hself1 :
      specs (set_sql db'
               (set_trace (trace w ++ [EvDescribeTables (spec_uri self) [t]]) w))
        !! l = Some self) by exact Hself.
    destruct (IH _ _ Hself1 Hrest) as (ds & Hds & ->).
    exists (d :: ds). split.
    + econstructor; [exact Hd | exact Hds].
    + cbn. by rewrite <- app_assoc.
Qed.

Lemma describes_length u tables db descriptions db' :
  describes u tables db descriptions db' → length descriptions = length tables.
Proof. induction 1; cbn; congruence. Qed.

Lemma from_documents_inv documents sc w index w' :
  VectorStoreIndex_from_documents documents sc w = (Returns index, w') →
  index = {| index_documents := documents; index_storage_context := sc |}.
Proof.
  unfold VectorStoreIndex_from_documents. intros Hrun.
  apply bind_Returns_inv in Hrun as (? & ? & _ & Hrun).
  apply bind_Returns_inv in Hrun as (? & ? & _ & Hrun).
  apply bind_Returns_inv in Hrun as (? & ? & _ & Hrun).
  by injection Hrun as <- _.
Qed.

Lemma get_query_tool_body_inv vsid database_id w tool w' :
  get_query_tool_body (vsid, database_id) w = (Returns tool, w') →
  ∃ l self w1 tables db2 descriptions db3,
    get_database_spec database_id w = (Returns l, w1)
    ∧ specs w1 !! l = Some self
    ∧ sql_list_tables (spec_uri self) (sql w1) = (Returns tables, db2)
    ∧ describes (spec_uri self) tables db2 descriptions db3
    ∧ tool =
        {| query_engine :=
             {| engine_index :=
                  {| index_documents := zip_with table_document tables descriptions;
                     index_storage_context := index_storage_context
                       (engine_index (query_engine tool)) |} |};
           metadata :=
             {| name := "table_query_engine";
                description := "Contains table descriptions for the database" |} |}.
Proof.
  unfold get_query_tool_body. intros Hrun.
  apply bind_Returns_inv in Hrun as (l & w1 & Hspec & Hrun).
  apply bind_Returns_inv in Hrun as (tables & w2 & Hlist & Hrun).
  apply bind_Returns_inv in Hrun as (documents & w3 & Hloop & Hrun).
  apply bind_Returns_inv in Hrun as (sc & w4 & _ & Hrun).
  apply bind_Returns_inv in Hrun as (index & w5 & Hindex & Hrun).
  injection Hrun as <- <-.
  apply list_tables_inv in Hlist as (self & db2 & Hself & Htables & ->).
  apply (describe_loop l self) in Hloop as (descriptions & Hdesc & ->);
    [|exact Hself].
  apply from_documents_inv in Hindex as ->.
  exists l, self, w1, tables, db2, descriptions, (sql w3).
  repeat (split; [assumption|]). reflexivity.
Qed.


(** The loop over the tables runs to its end when every description can be
    obtained; it changes the server and the log only. *)
Lemma describe_loop_runs l self tables descriptions db' :
  ∀ acc w,
    specs w !! l = Some self →
    describes (spec_uri self) tables (sql w) descriptions db' →
    ∃ tr,
      for_each tables acc (add_table_document l) w =
        (Returns (acc ++ zip_with table_document tables descriptions),
         set_trace tr (set_sql db' w)).
Proof.
  revert descriptions.
  induction tables as [|t ts IH]; intros descriptions acc w Hself Hdesc.
  - inversion Hdesc; subst. exists (trace w). cbn. unfold ret.
    rewrite app_nil_r. f_equal. world_eq.
  - inversion Hdesc as [|? ? ? d db1 ds ? Hd Hds]; subst.
    set (w1 := set_sql db1
                 (set_trace (trace w ++ [EvDescribeTables (spec_uri self) [t]]) w)).
    assert (Hstep : add_table_document l acc t w =
                      (Returns (acc ++ [table_document t d]), w1)).
    { unfold add_table_document, describe_tables, deref_spec, bind, read, log,
        modify, lift_sql, ret. cbn. rewrite Hself. cbn. by rewrite Hd. }
    destruct (IH ds (acc ++ [table_document t d]) w1 Hself Hds) as (tr & Hrest).
    exists tr. cbn [for_each]. rewrite (bind_Returns _ _ _ _ _ Hstep), Hrest.
    cbn. rewrite <- app_assoc. f_equal; try world_eq.
Qed.


(** * Further properties of the module *)

(** ** load_data: failures *)

(** X1: when [engine.connect()] fails, [load_data] raises that error
    whatever the query is: nothing is executed, no handler is called, and
    there is no connection to close. *)
Theorem load_data_connect_fails self query w e db1 :
  let u := spec_uri self in
  sql_connect u (sql w) = (Raises e, db1) →
  load_data self query w =
    (Raises e, set_trace (trace w ++ [EvConnect u]) (set_sql db1 w)).
Proof.
  intros u Hc. unfold load_data, with_connection, bind, log, modify, lift_sql.
  cbn. fold u. rewrite Hc. cbn. f_equal.
Qed.

(** X2: when the statement cannot be executed, or its result has no rows to
    fetch, [load_data] raises the library's error: the handler is not
    called, the session state is as before, and the connection is closed.
    In the second case the statement has been executed all the same. *)
Theorem load_data_sql_fails self query w db1 e db2 :
  let u := spec_uri self in
  sql_connect u (sql w) = (Returns tt, db1) →
  (sql_execute u query db1 = (Raises e, db2) →
   load_data self (Some query) w =
     (Raises e,
      set_trace (trace w ++ [EvConnect u; EvExecute u query; EvClose u])
        (set_sql (sql_close u db2) w)))
  ∧ (∀ cursor,
       sql_execute u query db1 = (Returns cursor, db2) →
       sql_fetchall cursor = Raises e →
       load_data self (Some query) w =
         (Raises e,
          set_trace (trace w ++ [EvConnect u; EvExecute u query; EvFetchall;
                                  EvClose u])
            (set_sql (sql_close u db2) w))).
Proof.
  intros u Hc. split.
  - intros He. unfold load_data, with_connection, execute.
    fold u. unfold bind, log, modify, lift_sql. cbn.
    rewrite Hc. cbn. rewrite He. cbn. f_equal. world_eq.
  - intros cursor He Hf. unfold load_data, with_connection, execute, fetchall.
    fold u. unfold bind, log, modify, lift_sql, lift_outcome. cbn.
    rewrite Hc. cbn. rewrite He. cbn. rewrite Hf. cbn. f_equal. world_eq.
Qed.

(** X3: when the registered handler raises, [load_data] raises its error
    after the query was executed and the rows fetched; no documents are
    returned, the session state is as the handler left it, and the
    connection is closed. *)
Theorem load_data_handler_raises self query w f db1 cursor db2 rows e ss' :
  let u := spec_uri self in
  handler self = Some (HandlerFunc f) →
  sql_connect u (sql w) = (Returns tt, db1) →
  sql_execute u query db1 = (Returns cursor, db2) →
  sql_fetchall cursor = Returns rows →
  f query rows (session_state w) = (Raises e, ss') →
  load_data self (Some query) w =
    (Raises e,
     set_trace (trace w ++ [EvConnect u; EvExecute u query; EvFetchall;
                             EvHandler query rows; EvClose u])
       (set_session_state ss' (set_sql (sql_close u db2) w))).
Proof.
  intros u Hh Hc He Hf Hcall.
  unfold load_data, with_connection, execute, fetchall, call_handler.
  fold u. rewrite Hh.
  unfold bind, log, modify, lift_sql, lift_outcome, lift_session. cbn.
  rewrite Hc. cbn. rewrite He. cbn. rewrite Hf. cbn. rewrite Hcall. cbn.
  f_equal. world_eq.
Qed.

(** ** load_data: what every run does *)

Lemma respects_lift_session {A} R (m : M SessionState A) :
  (∀ w ss, R w (set_session_state ss w)) → respects (DB := DB) R (lift_session m).
Proof.
  intros H w r w'. unfold lift_session.
  destruct (m (session_state w)) as [r1 ss]. intros [= <- <-]. apply H.
Qed.

Lemma respects_with_connection {A} R `{!PreOrder R} u (body : M (World DB) A) :
  (∀ w db, R w (set_sql db w)) →
  (∀ w t, R w (set_trace t w)) →
  respects R body →
  respects R (with_connection u body).
Proof.
  intros Hsql Htrace Hbody w r w'. unfold with_connection.
  assert (Hopen : respects R (log (EvConnect u) ;;; lift_sql (sql_connect u))).
  { apply respects_bind; [by apply respects_log|].
    intros ?. by apply respects_lift_sql. }
  destruct ((log (EvConnect u) ;;; lift_sql (sql_connect u)) w)
    as [[[]|e] w1] eqn:E.
  - destruct (body w1) as [r2 w2] eqn:E2. intros [= <- <-].
    transitivity w1; [exact (Hopen _ _ _ E)|].
    transitivity w2; [exact (Hbody _ _ _ E2)|].
    transitivity (set_sql (sql_close u (sql w2)) w2); [apply Hsql | apply Htrace].
  - intros [= <- <-]. exact (Hopen _ _ _ E).
Qed.

Lemma keeps_load_data {X} (proj : World DB → X) self query :
  (∀ w db, proj (set_sql db w) = proj w) →
  (∀ w t, proj (set_trace t w) = proj w) →
  (∀ w ss, proj (set_session_state ss w) = proj w) →
  keeps proj (load_data self query).
Proof.
  intros Hsql Htrace Hss. unfold keeps, load_data.
  apply (respects_with_connection _); [done|done|].
  destruct query as [q|]; [|apply (respects_raise (HR := keeps_preorder proj))].
  unfold execute, fetchall, call_handler.
  repeat (first [ apply (respects_lift_session _); done
                | respects_step (keeps_preorder proj)
                | done ]).
Qed.



Ltac closes_with mid :=
  let Hin := fresh "Hin" in
  exists mid; split;
  [ apply events_since_app; cbn; by rewrite <- ?app_assoc
  | intros ?; split; intros Hin;
    repeat (apply elem_of_cons in Hin as [Hin|Hin]; [discriminate|]);
    by apply elem_of_nil in Hin ].

(** X5: a connection that [load_data] opens is closed again.  In every run,
    whatever the query, the handler and the outcome, the log gains the
    opening of one connection, and, unless opening it failed, ends with its
    closing; no other connection is opened or closed in between. *)
Theorem load_data_closes_connection self query w :
  let u := spec_uri self in
  let evs := events_since w (snd (load_data self query w)) in
  match sql_connect u (sql w) with
  | (Raises _, _) => evs = [EvConnect u]
  | (Returns _, _) =>
      ∃ mid, evs = EvConnect u :: mid ++ [EvClose u]
             ∧ ∀ u', (EvConnect u' ∉ mid) ∧ (EvClose u' ∉ mid)
  end.
Proof.
  intros u evs. subst evs.
  unfold load_data, with_connection, execute, fetchall, call_handler, bind, log,
    modify, lift_sql, lift_outcome, lift_session, raise, ret. cbn. fold u.
  destruct (sql_connect u (sql w)) as [[[]|e] db1]; cbn;
    [|apply events_since_app; reflexivity].
  destruct query as [q|]; cbn; [|closes_with (@nil event)].
  destruct (sql_execute u q db1) as [[c|e] db2]; cbn;
    [|closes_with [EvExecute u q]].
  destruct (sql_fetchall c) as [rows|e]; cbn;
    [|closes_with [EvExecute u q; EvFetchall]].
  destruct (handler self) as [[|f]|]; cbn;
    [closes_with [EvExecute u q; EvFetchall]
    |
    |closes_with [EvExecute u q; EvFetchall]].
  destruct (f q rows (session_state w)) as [[[]|e] ss']; cbn;
    closes_with [EvExecute u q; EvFetchall; EvHandler q rows].
Qed.


(** ** The builders: unknown ids and failures *)

Lemma bind_Raises_inv {S A B} (m : M S A) (k : A → M S B) s e s' :
  bind m k s = (Raises e, s') →
  m s = (Raises e, s')
  ∨ ∃ a s1, m s = (Returns a, s1) ∧ k a s1 = (Raises e, s').
Proof.
  unfold bind. destruct (m s) as [[a|e0] s1]; [eauto|].
  intros [= -> ->]. by left.
Qed.

Lemma cache_resource_Raises_inv {K V} `{Countable K}
    (store : World DB → gmap K V) set_store (f : K → M (World DB) V) key w e w' :
  cache_resource store set_store f key w = (Raises e, w') →
  store w !! key = None ∧ f key w = (Raises e, w').
Proof.
  unfold cache_resource. destruct (store w !! key) as [v0|]; [discriminate|].
  destruct (f key w) as [[v0|e0] w1]; [discriminate|].
  by intros [= -> ->].
Qed.

(** X6: an id the session state does not know is reported by [KeyError]
    with that id, and the call changes nothing: not the caches, not the
    heap, not the log.  This holds for the vector-store id of
    [get_storage_context], the database id of [get_database_spec] and of
    [get_query_tool] (which looks the database up before the vector store),
    and the conversation id of [get_agent]. *)
Theorem unknown_ids_raise_KeyError w :
  (∀ vsid,
     storage_context_cache w !! vsid = None →
     vector_stores (session_state w) !! vsid = None →
     get_storage_context vsid w = (Raises (KeyError vsid), w))
  ∧ (∀ database_id,
       database_spec_cache w !! database_id = None →
       databases (session_state w) !! database_id = None →
       get_database_spec database_id w = (Raises (KeyError database_id), w))
  ∧ (∀ vsid database_id,
       query_tool_cache w !! (vsid, database_id) = None →
       database_spec_cache w !! database_id = None →
       databases (session_state w) !! database_id = None →
       get_query_tool vsid database_id w = (Raises (KeyError database_id), w))
  ∧ (∀ cid t,
       agent_cache w !! (cid, t) = None →
       conversations (session_state w) !! cid = None →
       get_agent cid t w = (Raises (KeyError cid), w)).
Proof.
  assert (Hdb : ∀ database_id,
            database_spec_cache w !! database_id = None →
            databases (session_state w) !! database_id = None →
            get_database_spec database_id w = (Raises (KeyError database_id), w)).
  { intros database_id Hmiss Hkey. unfold get_database_spec.
    rewrite cache_resource_miss by exact Hmiss.
    unfold get_database_spec_body, getitem, bind, read. by rewrite Hkey. }
  split; [|split; [exact Hdb|split]].
  - intros vsid Hmiss Hkey. unfold get_storage_context.
    rewrite cache_resource_miss by exact Hmiss.
    unfold get_storage_context_body, getitem, bind, read. by rewrite Hkey.
  - intros vsid database_id Hmiss Hmiss' Hkey. unfold get_query_tool.
    rewrite cache_resource_miss by exact Hmiss.
    unfold get_query_tool_body.
    by rewrite (bind_Raises _ _ _ _ _ (Hdb _ Hmiss' Hkey)).
  - intros cid t Hmiss Hkey. unfold get_agent.
    rewrite cache_resource_miss by exact Hmiss.
    unfold get_agent_body, getitem, bind, read. by rewrite Hkey.
Qed.

(** X7: a failure to construct the adapter is not cached.  When building
    the adapter's SQL database fails, [get_database_spec] raises that error
    and neither allocates nor caches anything; a later call tries again,
    and once the construction goes through it returns a new adapter and
    caches it. *)
Theorem get_database_spec_retries database_id w props e db1 db2 :
  database_spec_cache w !! database_id = None →
  databases (session_state w) !! database_id = Some props →
  sql_open (uri props) (sql w) = (Raises e, db1) →
  sql_open (uri props) db1 = (Returns tt, db2) →
  let l := next_loc w in
  get_database_spec database_id w = (Raises e, set_sql db1 w)
  ∧ get_database_spec database_id (set_sql db1 w) =
      (Returns l,
       set_database_spec_cache (<[database_id := l]> (database_spec_cache w))
         (set_trace (trace w ++ [EvNewSpec l (uri props)])
            (set_next_loc (S l)
               (set_specs (<[l := new_spec (uri props)]> (specs w))
                  (set_sql db2 w))))).
Proof.
  intros Hmiss Hkey Hfail Hok l. split.
  - unfold get_database_spec. rewrite cache_resource_miss by exact Hmiss.
    unfold get_database_spec_body, TrackingDatabaseToolSpec_new, getitem.
    unfold bind at 1, read. rewrite Hkey.
    unfold bind, lift_sql. by rewrite Hfail.
  - unfold get_database_spec. rewrite cache_resource_miss by exact Hmiss.
    unfold get_database_spec_body, TrackingDatabaseToolSpec_new, getitem.
    unfold bind at 1, read. cbn. rewrite Hkey.
    unfold bind, lift_sql, alloc_spec, log, modify, ret. cbn. rewrite Hok. cbn.
    f_equal; try world_eq.
Qed.

(** X8: a conversation without databases gets an agent without tools.  The
    call constructs the agent and nothing else: no adapter, no storage
    context, no call to the database or the vector service; the
    conversation's vector-store id is not even looked up. *)
Theorem get_agent_no_databases cid t w conversation :
  agent_cache w !! (cid, t) = None →
  conversations (session_state w) !! cid = Some conversation →
  database_ids conversation = [] →
  let a := next_loc w in
  get_agent cid t w =
    (Returns a,
     set_agent_cache (<[(cid, t) := a]> (agent_cache w))
       (set_trace (trace w ++ [EvNewAgent a])
          (set_next_loc (S a)
             (set_agents (<[a := {| agent_tools := []; verbose := true |}]>
                            (agents w)) w)))).
Proof.
  intros Hmiss Hkey Hids a. unfold get_agent.
  rewrite cache_resource_miss by exact Hmiss.
  unfold get_agent_body, getitem. unfold bind at 1, read. rewrite Hkey, Hids.
  cbn [for_each]. unfold bind, ret. rewrite OpenAIAgent_from_tools_run.
  reflexivity.
Qed.

(** X9: a build that fails caches nothing.  When one of the four cached
    functions raises, its own cache is as it was before the call; a failed
    [get_database_spec] has put no adapter on the heap, and a failed
    [get_agent] no agent. *)
Theorem failed_builds_cache_nothing w e w' :
  (∀ vsid,
     get_storage_context vsid w = (Raises e, w') →
     storage_context_cache w' = storage_context_cache w)
  ∧ (∀ database_id,
       get_database_spec database_id w = (Raises e, w') →
       database_spec_cache w' = database_spec_cache w ∧ specs w' = specs w)
  ∧ (∀ vsid database_id,
       get_query_tool vsid database_id w = (Raises e, w') →
       query_tool_cache w' = query_tool_cache w)
  ∧ (∀ cid t,
       get_agent cid t w = (Raises e, w') →
       agent_cache w' = agent_cache w ∧ agents w' = agents w).
Proof.
  split; [|split; [|split]].
  - intros vsid Hrun. apply cache_resource_Raises_inv in Hrun as [_ Hbody].
    exact (keeps_get_storage_context_body _ _ _ _ Hbody).
  - intros database_id Hrun.
    apply cache_resource_Raises_inv in Hrun as [_ Hbody].
    split; [exact (keeps_get_database_spec_body _ _ _ _ Hbody)|].
    unfold get_database_spec_body, TrackingDatabaseToolSpec_new in Hbody.
    apply bind_Raises_inv in Hbody as [Hbody|(db & w1 & Hread & Hbody)].
    + unfold read in Hbody. by injection Hbody as _ <-.
    + unfold read in Hread. injection Hread as _ <-.
      apply bind_Raises_inv in Hbody as [Hbody|([] & w2 & _ & Hbody)].
      * unfold lift_sql in Hbody.
        destruct (sql_open (uri db) (sql w)) as [r1 db1].
        by injection Hbody as _ <-.
      * unfold bind, alloc_spec, log, modify, ret in Hbody. discriminate.
  - intros vsid database_id Hrun.
    apply cache_resource_Raises_inv in Hrun as [_ Hbody].
    exact (keeps_get_query_tool_body _ _ _ _ Hbody).
  - intros cid t Hrun. apply cache_resource_Raises_inv in Hrun as [_ Hbody].
    split; [exact (keeps_get_agent_body _ _ _ _ Hbody)|].
    unfold get_agent_body in Hbody.
    apply bind_Raises_inv in Hbody as [Hbody|(conv & w1 & Hread & Hbody)].
    + unfold read in Hbody. by injection Hbody as _ <-.
    + unfold read in Hread. injection Hread as _ <-.
      apply bind_Raises_inv in Hbody as [Hbody|(tools & w2 & _ & Hbody)].
      * exact (loop_keeps_agents _ _ _ _ _ _ Hbody).
      * rewrite OpenAIAgent_from_tools_run in Hbody. discriminate.
Qed.

(** X10: what is cached is returned without looking at the session state
    again.  After a result was returned for a key, a change of the session
    state (a database's URI, a conversation's databases or vector store, a
    store's descriptor) is not seen by a call with the same key: it returns
    the object built before and changes nothing. *)
Theorem cached_results_ignore_session_changes w ss' :
  (∀ vsid l w1,
     get_storage_context vsid w = (Returns l, w1) →
     get_storage_context vsid (set_session_state ss' w1)
       = (Returns l, set_session_state ss' w1))
  ∧ (∀ database_id l w1,
       get_database_spec database_id w = (Returns l, w1) →
       get_database_spec database_id (set_session_state ss' w1)
         = (Returns l, set_session_state ss' w1))
  ∧ (∀ vsid database_id tool w1,
       get_query_tool vsid database_id w = (Returns tool, w1) →
       get_query_tool vsid database_id (set_session_state ss' w1)
         = (Returns tool, set_session_state ss' w1))
  ∧ (∀ cid t a w1,
       get_agent cid t w = (Returns a, w1) →
       get_agent cid t (set_session_state ss' w1)
         = (Returns a, set_session_state ss' w1)).
Proof.
  split; [|split; [|split]].
  - intros vsid l w1 Hrun. apply cache_resource_hit. cbn.
    apply cache_resource_inv in Hrun.
    destruct Hrun as [[Hhit ->]|(_ & wb & _ & ->)]; [done|].
    cbn. apply lookup_insert_eq.
  - intros database_id l w1 Hrun. apply cache_resource_hit. cbn.
    by apply get_database_spec_stored in Hrun.
  - intros vsid database_id tool w1 Hrun. apply cache_resource_hit. cbn.
    by apply get_query_tool_stored in Hrun.
  - intros cid t a w1 Hrun. apply cache_resource_hit. cbn.
    by apply get_agent_stored in Hrun.
Qed.

(** X11: the invariants of the builders.  From a well-formed world each of
    the four cached functions, whether it returns or raises, leads to a
    well-formed world in which the session state is unchanged, addresses
    have only grown, every adapter is still on the heap with its URI (and
    with the forwarding callback if it had it), every agent is still there,
    and no cache entry has been replaced or dropped. *)
Theorem builders_keep_invariants w :
  wf_world w →
  (∀ vsid r w',
     get_storage_context vsid w = (r, w') → wf_world w' ∧ evolves w w')
  ∧ (∀ database_id r w',
       get_database_spec database_id w = (r, w') → wf_world w' ∧ evolves w w')
  ∧ (∀ vsid database_id r w',
       get_query_tool vsid database_id w = (r, w') → wf_world w' ∧ evolves w w')
  ∧ (∀ cid t r w',
       get_agent cid t w = (r, w') → wf_world w' ∧ evolves w w').
Proof.
  intros Hwf. split; [|split; [|split]].
  - intros vsid r w' Hrun. exact (advances_get_storage_context _ _ _ _ Hrun Hwf).
  - intros database_id r w' Hrun.
    exact (advances_get_database_spec _ _ _ _ Hrun Hwf).
  - intros vsid database_id r w' Hrun.
    exact (advances_get_query_tool _ _ _ _ _ Hrun Hwf).
  - intros cid t r w' Hrun. exact (advances_get_agent _ _ _ _ _ Hrun Hwf).
Qed.


(** ** The tools of an agent *)

Lemma add_database_tools_inv vsid tools database_id w tools' w' :
  wf_world w →
  add_database_tools vsid tools database_id w = (Returns tools', w') →
  ∃ l tool,
    tools' = tools ++ database_tools (l, tool)
    ∧ database_spec_cache w' !! database_id = Some l
    ∧ query_tool_cache w' !! (vsid, database_id) = Some tool.
Proof.
  intros Hwf Hrun. unfold add_database_tools in Hrun.
  apply bind_Returns_inv in Hrun as (l & wa & Hspec & Hrun).
  apply bind_Returns_inv in Hrun as (tool & wb & Htool & Hrun).
  apply bind_Returns_inv in Hrun as ([] & wc & Hset & Hrun).
  injection Hrun as <- <-.
  destruct (advances_get_database_spec _ _ _ _ Hspec Hwf) as [Hwfa _].
  destruct (advances_get_query_tool _ _ _ _ _ Htool Hwfa) as [_ Hev].
  apply spec_set_handler_inv in Hset as (self & Hself & ->).
  exists l, tool. cbn. split; [by rewrite <- app_assoc|]. split.
  - apply (lookup_weaken (database_spec_cache wa)); [|apply Hev].
    by apply get_database_spec_stored in Hspec.
  - by apply get_query_tool_stored in Htool.
Qed.

Lemma loop_tools vsid ids tools w tools' w' :
  wf_world w →
  for_each ids tools (add_database_tools vsid) w = (Returns tools', w') →
  ∃ entries,
    tools' = tools ++ flat_map database_tools entries
    ∧ Forall2 (λ id entry,
                 database_spec_cache w' !! id = Some (fst entry)
                 ∧ query_tool_cache w' !! (vsid, id) = Some (snd entry))
        ids entries.
Proof.
  revert tools w. induction ids as [|id ids IH]; intros tools w Hwf Hrun.
  - injection Hrun as <- <-. exists []. cbn. by rewrite app_nil_r.
  - cbn [for_each] in Hrun.
    apply bind_Returns_inv in Hrun as (tools1 & w1 & Hstep & Hrest).
    destruct (advances_add_database_tools _ _ _ _ _ _ Hstep Hwf) as [Hwf1 _].
    destruct (advances_loop _ _ _ _ _ _ Hrest Hwf1) as [_ Hev].
    apply (add_database_tools_inv _ _ _ _ _ _ Hwf) in Hstep
      as (l & tool & -> & Hl & Htool).
    destruct (IH _ _ Hwf1 Hrest) as (entries & -> & Hall).
    exists ((l, tool) :: entries). split.
    + cbn [flat_map]. by rewrite <- app_assoc.
    + constructor; [|exact Hall]. cbn. split.
      * by apply (lookup_weaken _ _ _ _ Hl), ev_database_spec_cache.
      * by apply (lookup_weaken _ _ _ _ Htool), ev_query_tool_cache.
Qed.

Lemma get_agent_body_tools cid t w a w' :
  wf_world w →
  get_agent_body (cid, t) w = (Returns a, w') →
  ∃ conversation entries,
    conversations (session_state w) !! cid = Some conversation
    ∧ agents w' !! a =
        Some {| agent_tools := flat_map database_tools entries; verbose := true |}
    ∧ Forall2 (λ id entry,
                 database_spec_cache w' !! id = Some (fst entry)
                 ∧ query_tool_cache w' !! (vector_store_id conversation, id)
                   = Some (snd entry))
        (database_ids conversation) entries.
Proof.
  intros Hwf Hbody. apply get_agent_body_inv in Hbody
    as (conversation & tools & wl & Hconv & Hloop & -> & ->).
  apply (loop_tools _ _ _ _ _ _ Hwf) in Hloop as (entries & -> & Hall).
  exists conversation, entries. split; [exact Hconv|]. cbn.
  split; [apply lookup_insert_eq | exact Hall].
Qed.

Lemma flat_map_database_tools_length entries :
  length (flat_map database_tools entries) = (4 * length entries)%nat.
Proof. induction entries as [|entry entries IH]; cbn in *; lia. Qed.

(** X12: the tools of a new agent.  The agent [get_agent] builds has four
    tools for each database of the conversation, in the order of
    [database_ids]: the database's query tool, then [load_data],
    [describe_tables] and [list_tables] bound to the database's adapter;
    the query tool and the adapter are the ones the caches hold for that
    database. *)
Theorem get_agent_tools cid t w a w' conversation :
  wf_world w →
  agent_cache w !! (cid, t) = None →
  conversations (session_state w) !! cid = Some conversation →
  get_agent cid t w = (Returns a, w') →
  ∃ entries,
    agents w' !! a =
      Some {| agent_tools := flat_map database_tools entries; verbose := true |}
    ∧ length (flat_map database_tools entries) =
        (4 * length (database_ids conversation))%nat
    ∧ Forall2 (λ id entry,
                 database_spec_cache w' !! id = Some (fst entry)
                 ∧ query_tool_cache w' !! (vector_store_id conversation, id)
                   = Some (snd entry))
        (database_ids conversation) entries.
Proof.
  intros Hwf Hmiss Hconv Hrun. apply cache_resource_inv in Hrun.
  destruct Hrun as [[Hhit _]|(_ & wb & Hbody & ->)]; [congruence|].
  apply (get_agent_body_tools _ _ _ _ _ Hwf) in Hbody
    as (conversation' & entries & Hconv' & Hagent & Hall).
  assert (conversation' = conversation) as -> by congruence.
  exists entries. cbn. split; [exact Hagent|]. split; [|exact Hall].
  rewrite flat_map_database_tools_length.
  pose proof (Forall2_length _ _ _ Hall) as Hlen. lia.
Qed.

Lemma load_data_tool_of_entry id ids entries (P : string → loc * QueryEngineTool → Prop) :
  Forall2 P ids entries → id ∈ ids →
  ∃ entry, P id entry
           ∧ ToolFunction "load_data" (fst entry)
               ∈ flat_map database_tools entries.
Proof.
  induction 1 as [|id' entry ids entries Hhead Hall IH]; intros Hid.
  - by apply elem_of_nil in Hid.
  - apply elem_of_cons in Hid as [->|Hid].
    + exists entry. split; [exact Hhead|]. cbn.
      apply elem_of_cons. right. apply elem_of_cons. by left.
    + destruct (IH Hid) as (entry' & HP & Hin). exists entry'.
      split; [exact HP|]. cbn [flat_map]. apply elem_of_app. by right.
Qed.

(** X13: conversations share adapters.  When two conversations name the
    same database, the agents built for them are given the [load_data]
    tool of one and the same adapter object, the one cached for the
    database; the first agent is still on the heap when the second is
    built. *)
Theorem conversations_share_adapters cid1 t1 cid2 t2 database_id w
    conv1 conv2 a1 w1 a2 w2 :
  wf_world w →
  agent_cache w !! (cid1, t1) = None →
  agent_cache w1 !! (cid2, t2) = None →
  conversations (session_state w) !! cid1 = Some conv1 →
  conversations (session_state w) !! cid2 = Some conv2 →
  database_id ∈ database_ids conv1 →
  database_id ∈ database_ids conv2 →
  get_agent cid1 t1 w = (Returns a1, w1) →
  get_agent cid2 t2 w1 = (Returns a2, w2) →
  ∃ l agent1 agent2,
    database_spec_cache w2 !! database_id = Some l
    ∧ agents w2 !! a1 = Some agent1
    ∧ agents w2 !! a2 = Some agent2
    ∧ ToolFunction "load_data" l ∈ agent_tools agent1
    ∧ ToolFunction "load_data" l ∈ agent_tools agent2.
Proof.
  intros Hwf Hmiss1 Hmiss2 Hconv1 Hconv2 Hin1 Hin2 Hrun1 Hrun2.
  destruct (advances_get_agent _ _ _ _ _ Hrun1 Hwf) as [Hwf1 Hev1].
  destruct (advances_get_agent _ _ _ _ _ Hrun2 Hwf1) as [_ Hev2].
  apply cache_resource_inv in Hrun1.
  destruct Hrun1 as [[Hhit _]|(_ & wb1 & Hbody1 & ->)]; [congruence|].
  apply (get_agent_body_tools _ _ _ _ _ Hwf) in Hbody1
    as (conv1' & entries1 & Hc1 & Hagent1 & Hall1).
  assert (conv1' = conv1) as -> by congruence.
  apply cache_resource_inv in Hrun2.
  destruct Hrun2 as [[Hhit _]|(_ & wb2 & Hbody2 & ->)]; [congruence|].
  apply (get_agent_body_tools _ _ _ _ _ Hwf1) in Hbody2
    as (conv2' & entries2 & Hc2 & Hagent2 & Hall2).
  assert (conv2' = conv2) as ->.
  { pose proof (ev_session_state _ _ Hev1) as Hss. cbn in Hss, Hc2.
    rewrite Hss in Hc2. congruence. }
  destruct (load_data_tool_of_entry _ _ _ _ Hall1 Hin1)
    as ([l1 tool1] & [Hl1 _] & Htool1).
  destruct (load_data_tool_of_entry _ _ _ _ Hall2 Hin2)
    as ([l2 tool2] & [Hl2 _] & Htool2).
  cbn in Hl1, Hl2, Htool1, Htool2.
  assert (l2 = l1) as ->.
  { pose proof (ev_database_spec_cache _ _ Hev2) as Hsub. cbn in Hsub.
    pose proof (lookup_weaken _ _ _ _ Hl1 Hsub) as Hl1'. cbn in Hl2.
    congruence. }
  eexists l1, _, _. cbn. split; [exact Hl2|]. split.
  - apply (lookup_weaken (agents wb1)); [exact Hagent1|].
    pose proof (ev_agents _ _ Hev2) as Hsub. exact Hsub.
  - split; [exact Hagent2|]. split; [exact Htool1 | exact Htool2].
Qed.


(** ** The vector store behind the query tools *)

Lemma from_documents_in_memory documents sc data w :
  storage_contexts w !! sc = Some {| vector_store := SimpleVectorStore data |} →
  VectorStoreIndex_from_documents documents sc w =
    (Returns {| index_documents := documents; index_storage_context := sc |},
     set_storage_contexts
       (<[sc := {| vector_store := SimpleVectorStore (data ++ documents) |}]>
          (storage_contexts w))
       (set_trace (trace w ++ [EvIndexDocuments sc documents]) w)).
Proof.
  intros Hsc.
  unfold VectorStoreIndex_from_documents, deref_storage_context, bind, read, log,
    modify, ret. cbn. by rewrite Hsc.
Qed.

Lemma keeps_storage_before_index database_id l tables :
  keeps (DB := DB) (λ w, (storage_context_cache w, storage_contexts w))
    (get_database_spec database_id)
  ∧ keeps (DB := DB) (λ w, (storage_context_cache w, storage_contexts w))
      (list_tables l)
  ∧ keeps (DB := DB) (λ w, (storage_context_cache w, storage_contexts w))
      (for_each tables [] (add_table_document l)).
Proof. repeat split; keeps_go. Qed.

(** X14: query tools built over the same vector-store id share one vector
    store.  When the storage context of the id is already cached and wraps
    an in-memory store, [get_query_tool] builds its index in that very
    storage context: the documents of the new tool are added behind the
    ones the store already holds, which stay. *)
Theorem get_query_tool_shares_store vsid database_id w tool w' sc data :
  query_tool_cache w !! (vsid, database_id) = None →
  storage_context_cache w !! vsid = Some sc →
  storage_contexts w !! sc = Some {| vector_store := SimpleVectorStore data |} →
  get_query_tool vsid database_id w = (Returns tool, w') →
  let index := engine_index (query_engine tool) in
  index_storage_context index = sc
  ∧ storage_context_cache w' !! vsid = Some sc
  ∧ storage_contexts w' !! sc =
      Some {| vector_store := SimpleVectorStore (data ++ index_documents index) |}.
Proof.
  intros Hmiss Hcache Hstore Hrun index. subst index.
  apply cache_resource_inv in Hrun.
  destruct Hrun as [[Hhit _]|(_ & wb & Hbody & ->)]; [congruence|].
  unfold get_query_tool_body in Hbody.
  apply bind_Returns_inv in Hbody as (l & w1 & Hspec & Hbody).
  apply bind_Returns_inv in Hbody as (tables & w2 & Hlist & Hbody).
  apply bind_Returns_inv in Hbody as (documents & w3 & Hloop & Hbody).
  apply bind_Returns_inv in Hbody as (sc' & w4 & Hctx & Hbody).
  apply bind_Returns_inv in Hbody as (index & w5 & Hindex & Hbody).
  injection Hbody as <- <-.
  destruct (keeps_storage_before_index database_id l tables) as (K1 & K2 & K3).
  pose proof (K1 _ _ _ Hspec) as E1. pose proof (K2 _ _ _ Hlist) as E2.
  pose proof (K3 _ _ _ Hloop) as E3. cbn in E1, E2, E3.
  assert (E : storage_context_cache w3 = storage_context_cache w
              ∧ storage_contexts w3 = storage_contexts w).
  { split; congruence. }
  destruct E as [Ecache Estore].
  unfold get_storage_context in Hctx.
  rewrite (cache_resource_hit _ _ _ _ _ sc) in Hctx by (by rewrite Ecache).
  injection Hctx as <- <-.
  rewrite (from_documents_in_memory documents sc data) in Hindex
    by (by rewrite Estore).
  injection Hindex as <- <-. cbn.
  split; [reflexivity|]. split; [by rewrite Ecache|].
  apply lookup_insert_eq.
Qed.

(** X15: [get_query_tool] works on the database before it looks at the
    vector store.  When the vector-store id is unknown but the database is
    fine, the call raises [KeyError] for the vector-store id only after it
    has constructed the adapter, listed the tables and described them; the
    adapter stays cached, no query tool is. *)
Theorem get_query_tool_unknown_vector_store vsid database_id w props db1
    tables db2 descriptions db3 :
  query_tool_cache w !! (vsid, database_id) = None →
  database_spec_cache w !! database_id = None →
  storage_context_cache w !! vsid = None →
  databases (session_state w) !! database_id = Some props →
  vector_stores (session_state w) !! vsid = None →
  sql_open (uri props) (sql w) = (Returns tt, db1) →
  sql_list_tables (uri props) db1 = (Returns tables, db2) →
  describes (uri props) tables db2 descriptions db3 →
  ∃ w',
    get_query_tool vsid database_id w = (Raises (KeyError vsid), w')
    ∧ database_spec_cache w' !! database_id = Some (next_loc w)
    ∧ specs w' !! next_loc w = Some (new_spec (uri props))
    ∧ query_tool_cache w' = query_tool_cache w
    ∧ sql w' = db3.
Proof.
  intros Hq Hd Hs Hdb Hvs Hopen Hlist Hdesc.
  unfold get_query_tool. rewrite cache_resource_miss by exact Hq.
  unfold get_query_tool_body.
  set (l := next_loc w).
  set (w1 := set_database_spec_cache (<[database_id := l]> (database_spec_cache w))
               (set_trace (trace w ++ [EvNewSpec l (uri props)])
                  (set_next_loc (S l)
                     (set_specs (<[l := new_spec (uri props)]> (specs w))
                        (set_sql db1 w))))).
  assert (Hspec : get_database_spec database_id w = (Returns l, w1)).
  { unfold get_database_spec. rewrite cache_resource_miss by exact Hd.
    unfold get_database_spec_body, TrackingDatabaseToolSpec_new, getitem.
    unfold bind at 1, read. rewrite Hdb.
    unfold bind, lift_sql, alloc_spec, log, modify, ret. cbn. rewrite Hopen. cbn.
    f_equal; try world_eq. }
  rewrite (bind_Returns _ _ _ _ _ Hspec).
  assert (Hself : specs w1 !! l = Some (new_spec (uri props)))
    by (cbn; apply lookup_insert_eq).
  set (w2 := set_sql db2 (set_trace (trace w1 ++ [EvListTables (uri props)]) w1)).
  assert (Htables : list_tables l w1 = (Returns tables, w2)).
  { unfold list_tables, deref_spec, bind, read, log, modify, lift_sql.
    rewrite Hself. cbn. by rewrite Hlist. }
  rewrite (bind_Returns _ _ _ _ _ Htables).
  destruct (describe_loop_runs l (new_spec (uri props)) tables descriptions db3
              [] w2 Hself Hdesc) as (tr & Hloop).
  rewrite (bind_Returns _ _ _ _ _ Hloop). cbn [app].
  set (w3 := set_trace tr (set_sql db3 w2)).
  assert (Hctx : get_storage_context vsid w3 = (Raises (KeyError vsid), w3)).
  { unfold get_storage_context. rewrite cache_resource_miss by exact Hs.
    unfold get_storage_context_body, getitem, bind, read. cbn. by rewrite Hvs. }
  rewrite (bind_Raises _ _ _ _ _ Hctx).
  exists w3. split; [reflexivity|]. cbn.
  split; [apply lookup_insert_eq|]. split; [apply lookup_insert_eq|]. done.
Qed.


(** ** From the agent's tools to the conversation queue *)

(** X19: where the results of an agent's queries go.  Once [get_agent] has
    built the agent of a conversation, a query run through the [load_data]
    tool of any of the conversation's databases is recorded in the queue of
    the conversation that is current when the query runs, whichever
    conversation the agent was built for: that queue gets the pair of the
    query and its rows appended, and the documents are returned. *)
Theorem agent_queries_reach_current_queue cid t w a w1 conversation database_id
    current :
  wf_world w →
  agent_cache w !! (cid, t) = None →
  get_agent cid t w = (Returns a, w1) →
  conversations (session_state w) !! cid = Some conversation →
  database_id ∈ database_ids conversation →
  conversations (session_state w) !! current_conversation (session_state w)
    = Some current →
  ∃ l self,
    database_spec_cache w1 !! database_id = Some l
    ∧ specs w1 !! l = Some self
    ∧ ∀ query rows db',
        fetches (spec_uri self) query (sql w1) rows db' →
        ∃ w2,
          load_data self (Some query) w1 = (Returns (map row_document rows), w2)
          ∧ conversations (session_state w2) =
              <[current_conversation (session_state w) :=
                  append_result current (query, rows)]>
                (conversations (session_state w)).
Proof.
  intros Hwf Hmiss Hrun Hconv Hid Hcurrent.
  destruct (advances_get_agent _ _ _ _ _ Hrun Hwf) as [_ Hev].
  pose proof (ev_session_state _ _ Hev) as Hss.
  destruct (get_agent_warm _ _ _ _ _ Hwf Hmiss Hrun) as (conv' & Hconv' & Hwarm).
  assert (conv' = conversation) as -> by congruence.
  destruct (Hwarm database_id Hid) as (l & self & tool & Hl & Hself & Hh & _).
  exists l, self. split; [exact Hl|]. split; [exact Hself|].
  intros query rows db' Hfetch.
  destruct (load_data_forwards self query w1 current rows db' Hh)
    as (w2 & Hload & _ & _ & _ & _ & Hqueue).
  - by rewrite Hss.
  - exact Hfetch.
  - exists w2. split; [exact Hload|]. by rewrite Hqueue, Hss.
Qed.

End AgentProperties.

(** * The running example

    The properties above, applied to the scripted server: one database with
    one table, an in-memory and a hosted vector store, two conversations. *)

Import Scripted.

Example str_examples :
  map str [PyInt 0; PyInt 42; PyInt (-7); PyStr "a"; PyBool true; PyNone]
  = ["0"; "42"; "-7"; "a"; "True"; "None"].
Proof. reflexivity. Qed.

Example row_document_examples :
  map row_document demo_rows = [{| text := "1, a" |}; {| text := "2, b" |}]
  ∧ row_document [] = {| text := EmptyString |}
  ∧ row_document [PyNone] = {| text := "None" |}.
Proof. repeat split. Qed.

(** C1, as stated, fails: on the demo server [load_data(None)] does raise
    [ValueError] and runs no SQL, but a connection has been opened (and
    closed again) by the time it does. *)
Lemma load_data_None_opens_connection :
  let run := load_data (new_spec demo_uri) None demo_world in
  fst run = Raises (ValueError "A query parameter is necessary to filter the data")
  ∧ events_since demo_world (snd run) = [EvConnect demo_uri; EvClose demo_uri]
  ∧ EvConnect demo_uri ∈ events_since demo_world (snd run)
  ∧ events_since demo_world (snd run) ≠ [].
Proof.
  cbn zeta. split; [by vm_compute|].
  assert (E : events_since demo_world
                (snd (load_data (new_spec demo_uri) None demo_world))
              = [EvConnect demo_uri; EvClose demo_uri]) by (by vm_compute).
  rewrite E. split; [done|]. split; [|done]. apply elem_of_cons. by left.
Qed.

(** C7 on the code: an adapter that never had [set_handler] called has no
    [handler] attribute, so the guard [if self.handler:] raises
    [AttributeError] after the query was executed and its rows fetched;
    no document is returned. *)
Theorem load_data_without_handler_raises :
  let run := load_data (new_spec demo_uri) (Some demo_query) demo_world in
  fst run = Raises (AttributeError "handler")
  ∧ events_since demo_world (snd run) =
      [EvConnect demo_uri; EvExecute demo_uri demo_query; EvFetchall;
       EvClose demo_uri]
  ∧ journal (sql (snd run)) = [demo_query].
Proof. cbn zeta. repeat split; by vm_compute. Qed.

(** C2 on the running example. *)
Lemma load_data_documents_witness :
  handler demo_spec = Some (HandlerFunc database_spec_handler)
  ∧ fst (load_data demo_spec (Some demo_query) demo_world)
    = Returns [{| text := "1, a" |}; {| text := "2, b" |}]
  ∧ EvHandler demo_query demo_rows
      ∈ events_since demo_world
          (snd (load_data demo_spec (Some demo_query) demo_world)).
Proof.
  split; [reflexivity|].
  destruct (load_data_documents demo_spec demo_query demo_world
              database_spec_handler demo_db
              (Some demo_rows : @Cursor _ backend) (demo_db_after 1) demo_rows
              (snd (database_spec_handler demo_query demo_rows demo_session)))
    as (Hrun & _ & _).
  - reflexivity.
  - reflexivity.
  - reflexivity.
  - reflexivity.
  - by vm_compute.
  - rewrite Hrun. split; [reflexivity|].
    erewrite events_since_app by (cbn; reflexivity).
    rewrite !elem_of_cons. tauto.
Defined.

Lemma demo_executes :
  executes demo_uri [demo_query; demo_query] demo_db [demo_rows; demo_rows]
    (demo_db_after 2).
Proof.
  apply (executes_cons _ _ _ _ _ (demo_db_after 1)); [by econstructor|].
  apply (executes_cons _ _ _ _ _ (demo_db_after 2)); [by econstructor|].
  constructor.
Qed.


Lemma demo_world_wf : wf_world demo_world.
Proof.
  constructor; intros l [x Hx]; cbn in Hx; by rewrite lookup_empty in Hx.
Qed.


(** C5 on the running example. *)
Lemma get_agent_ignores_timestamp_witness :
  agent_cache demo_world !! ("c1", 1) = None
  ∧ agent_cache demo_world !! ("c1", 2) = None
  ∧ fst (get_agent "c1" 1 demo_world) = fst (get_agent "c1" 2 demo_world).
Proof.
  split; [reflexivity|]. split; [reflexivity|].
  destruct (get_agent_ignores_timestamp "c1" 1 2 demo_world) as [_ Hcached].
  destruct Hcached as (r & w' & H1 & H2); [reflexivity|reflexivity|].
  by rewrite H1, H2.
Defined.

(** C6 on the running example: the index "tables" does not exist at first. *)
Lemma get_storage_context_hosted_witness :
  storage_context_cache demo_world !! "pc" = None
  ∧ vector_stores (session_state demo_world) !! "pc" = Some demo_hosted
  ∧ get_vector_store_type demo_hosted = PineconeDB
  ∧ ∃ l w',
      get_storage_context "pc" demo_world = (Returns l, w')
      ∧ events_since demo_world w' =
          [EvPineconeInit "k" "us-west1"; EvPineconeListIndexes;
           EvPineconeCreateIndex "tables" 1536 "cosine";
           EvPineconeIndex "tables"; EvNewStorageContext l]
      ∧ pc_indexes (pinecone w') =
          [{| pi_name := "tables"; pi_dimension := 1536; pi_metric := "cosine";
              pi_vectors := [] |}].
Proof.
  assert (Hp : vector_stores (session_state demo_world) !! "pc" = Some demo_hosted)
    by (by vm_compute).
  split; [reflexivity|]. split; [exact Hp|]. split; [reflexivity|].
  destruct (get_storage_context_hosted "pc" demo_hosted demo_world)
    as (l & w' & Hrun & _ & Hev & Hidx & _).
  - reflexivity.
  - exact Hp.
  - reflexivity.
  - exists l, w'. split; [exact Hrun|]. split; [exact Hev|exact Hidx].
Defined.



(** C10 on the running example: two in-memory descriptors that differ in
    every hosted field. *)
Lemma get_storage_context_in_memory_witness :
  let p1 := {| store_type := InMemory; api_key := EmptyString;
               environment := EmptyString; index_name := EmptyString |} in
  let p2 := {| store_type := InMemory; api_key := "secret";
               environment := "eu-west4"; index_name := "other" |} in
  storage_context_cache demo_world !! "mem" = None
  ∧ get_vector_store_type p1 = InMemory
  ∧ get_vector_store_type p2 = InMemory
  ∧ ∃ l w1 w2,
      get_storage_context "mem" (with_vector_store "mem" p1 demo_world)
        = (Returns l, w1)
      ∧ get_storage_context "mem" (with_vector_store "mem" p2 demo_world)
        = (Returns l, w2)
      ∧ storage_contexts w1 !! l = Some {| vector_store := SimpleVectorStore [] |}
      ∧ storage_contexts w2 = storage_contexts w1
      ∧ pinecone w1 = empty_pinecone ∧ pinecone w2 = empty_pinecone.
Proof.
  intros p1 p2.
  split; [reflexivity|]. split; [reflexivity|]. split; [reflexivity|].
  destruct (get_storage_context_in_memory "mem" p1 p2 demo_world)
    as (l & w1 & w2 & H1 & H2 & Hl & Heq & Hp1 & Hp2 & _);
    [reflexivity|reflexivity|reflexivity|].
  exists l, w1, w2. repeat split; assumption.
Defined.

(** * The further properties on the running example *)

(** X1 on the server that cannot be reached. *)
Lemma load_data_connect_fails_witness :
  sql_connect demo_uri (sql offline_world) = (Raises unreachable, offline_db)
  ∧ fst (load_data demo_spec (Some demo_query) offline_world) = Raises unreachable
  ∧ events_since offline_world
      (snd (load_data demo_spec (Some demo_query) offline_world))
    = [EvConnect demo_uri].
Proof.
  assert (Hc : sql_connect (spec_uri demo_spec) (sql offline_world)
               = (Raises unreachable, offline_db)) by reflexivity.
  pose proof (load_data_connect_fails demo_spec (Some demo_query) offline_world
                unreachable offline_db Hc) as Hrun.
  split; [exact Hc|]. rewrite Hrun. split; [reflexivity|].
  apply events_since_app. reflexivity.
Defined.

(** X2 on the demo server: a statement it does not understand, and a
    [DELETE], which it executes but which returns no rows. *)
Lemma load_data_sql_fails_witness :
  sql_connect demo_uri (sql demo_world) = (Returns tt, demo_db)
  ∧ fst (load_data demo_spec (Some "SELEC") demo_world)
    = Raises (LibraryError "syntax error")
  ∧ fst (load_data demo_spec (Some "DELETE FROM t") demo_world)
    = Raises (LibraryError "This result object does not return rows")
  ∧ journal (sql (snd (load_data demo_spec (Some "DELETE FROM t") demo_world)))
    = ["DELETE FROM t"]
  ∧ session_state (snd (load_data demo_spec (Some "DELETE FROM t") demo_world))
    = demo_session.
Proof.
  assert (Hc : sql_connect (spec_uri demo_spec) (sql demo_world)
               = (Returns tt, demo_db)) by reflexivity.
  destruct (load_data_sql_fails demo_spec "SELEC" demo_world demo_db
              (LibraryError "syntax error") demo_db Hc) as [Hexec _].
  destruct (load_data_sql_fails demo_spec "DELETE FROM t" demo_world demo_db
              (LibraryError "This result object does not return rows")
              {| reachable := true; answers := answers demo_db;
                 tables := tables demo_db; journal := ["DELETE FROM t"] |} Hc)
    as [_ Hfetch].
  split; [exact Hc|].
  rewrite (Hexec eq_refl).
  rewrite (Hfetch (None : @Cursor _ backend) eq_refl eq_refl).
  repeat split.
Defined.

(** X3 on the demo server when the current conversation does not exist:
    the forwarding callback raises [KeyError]. *)
Lemma load_data_handler_raises_witness :
  handler demo_spec = Some (HandlerFunc database_spec_handler)
  ∧ database_spec_handler demo_query demo_rows (session_state lost_world)
    = (Raises (KeyError "gone"), lost_session)
  ∧ fst (load_data demo_spec (Some demo_query) lost_world)
    = Raises (KeyError "gone")
  ∧ journal (sql (snd (load_data demo_spec (Some demo_query) lost_world)))
    = [demo_query].
Proof.
  assert (Hcall : database_spec_handler demo_query demo_rows
                    (session_state lost_world)
                  = (Raises (KeyError "gone"), lost_session)) by (by vm_compute).
  pose proof (load_data_handler_raises demo_spec demo_query lost_world
                database_spec_handler demo_db
                (Some demo_rows : @Cursor _ backend) (demo_db_after 1) demo_rows
                (KeyError "gone") lost_session eq_refl eq_refl eq_refl eq_refl
                Hcall) as Hrun.
  split; [reflexivity|]. split; [exact Hcall|]. rewrite Hrun. by split.
Defined.

(** X6 on the demo world: none of the ids "nope" is known. *)
Lemma unknown_ids_raise_KeyError_witness :
  get_storage_context "nope" demo_world = (Raises (KeyError "nope"), demo_world)
  ∧ get_database_spec "nope" demo_world = (Raises (KeyError "nope"), demo_world)
  ∧ get_query_tool "mem" "nope" demo_world
    = (Raises (KeyError "nope"), demo_world)
  ∧ get_agent "nope" 1 demo_world = (Raises (KeyError "nope"), demo_world).
Proof.
  destruct (unknown_ids_raise_KeyError demo_world) as (H1 & H2 & H3 & H4).
  split; [apply H1; reflexivity|]. split; [apply H2; reflexivity|].
  split; [apply H3; reflexivity|]. apply H4; reflexivity.
Defined.

#[local] Existing Instance Flaky.flaky_backend.

(** X7 on the server that refuses once. *)
Lemma get_database_spec_retries_witness :
  let refused := set_sql 0%nat Flaky.flaky_world in
  sql_open demo_uri (sql Flaky.flaky_world) = (Raises unreachable, 0%nat)
  ∧ sql_open demo_uri 0%nat = (Returns tt, 0%nat)
  ∧ get_database_spec "db1" Flaky.flaky_world = (Raises unreachable, refused)
  ∧ fst (get_database_spec "db1" refused) = Returns 0%nat.
Proof.
  intros refused.
  destruct (get_database_spec_retries "db1" Flaky.flaky_world
              {| uri := demo_uri |} unreachable 0%nat 0%nat)
    as [Hfail Hretry]; [reflexivity|by vm_compute|reflexivity|reflexivity|].
  split; [reflexivity|]. split; [reflexivity|]. split; [exact Hfail|].
  exact (f_equal fst Hretry).
Defined.

(** X8 on the conversation "c0", which has no database and names a vector
    store that does not exist. *)
Lemma get_agent_no_databases_witness :
  vector_stores (session_state shared_world) !! "missing" = None
  ∧ fst (get_agent "c0" 1 shared_world) = Returns 0%nat
  ∧ agents (snd (get_agent "c0" 1 shared_world)) !! 0%nat
    = Some {| agent_tools := []; verbose := true |}
  ∧ events_since shared_world (snd (get_agent "c0" 1 shared_world))
    = [EvNewAgent 0%nat].
Proof.
  pose proof (get_agent_no_databases "c0" 1 shared_world
                {| vector_store_id := "missing"; database_ids := [];
                   query_results_queue := []; last_update_timestamp := 0 |})
    as Hrun.
  cbn zeta in Hrun. rewrite Hrun; [|reflexivity|by vm_compute|reflexivity].
  split; [by vm_compute|]. split; [reflexivity|].
  split; [apply lookup_insert_eq|]. apply events_since_app. reflexivity.
Defined.

(** X9 on the demo world: the four builders fail on unknown ids. *)
Lemma failed_builds_cache_nothing_witness :
  get_agent "nope" 1 demo_world = (Raises (KeyError "nope"), demo_world)
  ∧ get_database_spec "db1" offline_world
    = (Raises unreachable, offline_world)
  ∧ specs (snd (get_database_spec "db1" offline_world)) = ∅
  ∧ database_spec_cache (snd (get_database_spec "db1" offline_world)) = ∅.
Proof.
  assert (Hagent : get_agent "nope" 1 demo_world
                   = (Raises (KeyError "nope"), demo_world)) by (by vm_compute).
  assert (Hspec : get_database_spec "db1" offline_world
                  = (Raises unreachable, offline_world)) by (by vm_compute).
  destruct (failed_builds_cache_nothing offline_world unreachable offline_world)
    as (_ & Hfail & _ & _).
  destruct (Hfail "db1" Hspec) as [Hcache Hspecs].
  split; [exact Hagent|]. split; [exact Hspec|].
  rewrite Hspec. cbn [snd]. by split.
Defined.

(** X10 on the demo world: the adapter of "db1" survives the loss of the
    whole session state. *)
Lemma cached_results_ignore_session_changes_witness :
  let w1 := snd (get_database_spec "db1" demo_world) in
  let forgotten :=
    {| vector_stores := ∅; databases := ∅; conversations := ∅;
       current_conversation := EmptyString |} in
  get_database_spec "db1" demo_world = (Returns 0%nat, w1)
  ∧ get_database_spec "db1" (set_session_state forgotten w1)
    = (Returns 0%nat, set_session_state forgotten w1).
Proof.
  intros w1 forgotten.
  assert (Hrun : get_database_spec "db1" demo_world = (Returns 0%nat, w1))
    by (by vm_compute).
  destruct (cached_results_ignore_session_changes demo_world forgotten)
    as (_ & Hspec & _ & _).
  split; [exact Hrun | exact (Hspec "db1" 0%nat w1 Hrun)].
Defined.

(** X11 on the demo world. *)
Lemma builders_keep_invariants_witness :
  wf_world demo_world
  ∧ wf_world (snd (get_agent "c1" 1 demo_world))
  ∧ evolves demo_world (snd (get_agent "c1" 1 demo_world)).
Proof.
  destruct (builders_keep_invariants demo_world demo_world_wf)
    as (_ & _ & _ & Hagent).
  split; [exact demo_world_wf|].
  apply (Hagent "c1" 1 (fst (get_agent "c1" 1 demo_world))).
  apply surjective_pairing.
Defined.

(** X12 on the demo world: conversation "c1" has one database. *)
Lemma get_agent_tools_witness :
  let w' := snd (get_agent "c1" 1 demo_world) in
  wf_world demo_world
  ∧ agent_cache demo_world !! ("c1", 1) = None
  ∧ get_agent "c1" 1 demo_world = (Returns 2%nat, w')
  ∧ ∃ entries,
      agents w' !! 2%nat =
        Some {| agent_tools := flat_map database_tools entries; verbose := true |}
      ∧ length (flat_map database_tools entries) = 4%nat.
Proof.
  intros w'.
  assert (Hrun : get_agent "c1" 1 demo_world = (Returns 2%nat, w'))
    by (by vm_compute).
  destruct (get_agent_tools "c1" 1 demo_world 2%nat w'
              {| vector_store_id := "mem"; database_ids := ["db1"];
                 query_results_queue := []; last_update_timestamp := 0 |}
              demo_world_wf eq_refl)
    as (entries & Hagent & Hlen & _); [by vm_compute|exact Hrun|].
  split; [exact demo_world_wf|]. split; [reflexivity|]. split; [exact Hrun|].
  exists entries. split; [exact Hagent | exact Hlen].
Defined.

Lemma shared_world_wf : wf_world shared_world.
Proof.
  constructor; intros l [x Hx]; cbn in Hx; by rewrite lookup_empty in Hx.
Qed.

(** X13 on the shared session: "c1" and "c2" both name "db1". *)
Lemma conversations_share_adapters_witness :
  let w1 := snd (get_agent "c1" 1 shared_world) in
  let w2 := snd (get_agent "c2" 1 w1) in
  get_agent "c1" 1 shared_world = (Returns 2%nat, w1)
  ∧ get_agent "c2" 1 w1 = (Returns 4%nat, w2)
  ∧ ∃ l agent1 agent2,
      database_spec_cache w2 !! "db1" = Some l
      ∧ agents w2 !! 2%nat = Some agent1
      ∧ agents w2 !! 4%nat = Some agent2
      ∧ ToolFunction "load_data" l ∈ agent_tools agent1
      ∧ ToolFunction "load_data" l ∈ agent_tools agent2.
Proof.
  intros w1 w2.
  assert (Hrun1 : get_agent "c1" 1 shared_world = (Returns 2%nat, w1))
    by (by vm_compute).
  assert (Hrun2 : get_agent "c2" 1 w1 = (Returns 4%nat, w2))
    by (by vm_compute).
  split; [exact Hrun1|]. split; [exact Hrun2|].
  apply (conversations_share_adapters "c1" 1 "c2" 1 "db1" shared_world
           {| vector_store_id := "mem"; database_ids := ["db1"];
              query_results_queue := []; last_update_timestamp := 0 |}
           {| vector_store_id := "mem"; database_ids := ["db2"; "db1"];
              query_results_queue := []; last_update_timestamp := 0 |}
           2%nat w1 4%nat w2 shared_world_wf eq_refl).
  - by vm_compute.
  - by vm_compute.
  - by vm_compute.
  - apply elem_of_cons. by left.
  - apply elem_of_cons. right. apply elem_of_cons. by left.
  - exact Hrun1.
  - exact Hrun2.
Defined.

(** X14 on the shared session: the tools of "db1" and "db2" over the
    in-memory store "mem". *)
Lemma get_query_tool_shares_store_witness :
  let w1 := snd (get_query_tool "mem" "db1" shared_world) in
  let w2 := snd (get_query_tool "mem" "db2" w1) in
  query_tool_cache w1 !! ("mem", "db2") = None
  ∧ storage_context_cache w1 !! "mem" = Some 1%nat
  ∧ storage_contexts w1 !! 1%nat
    = Some {| vector_store := SimpleVectorStore [demo_table_document] |}
  ∧ get_query_tool "mem" "db2" w1 = (Returns demo_tool, w2)
  ∧ storage_contexts w2 !! 1%nat
    = Some {| vector_store :=
                SimpleVectorStore [demo_table_document; demo_table_document] |}.
Proof.
  intros w1 w2.
  assert (Hmiss : query_tool_cache w1 !! ("mem", "db2") = None)
    by (by vm_compute).
  assert (Hcache : storage_context_cache w1 !! "mem" = Some 1%nat)
    by (by vm_compute).
  assert (Hstore : storage_contexts w1 !! 1%nat
                   = Some {| vector_store :=
                               SimpleVectorStore [demo_table_document] |})
    by (by vm_compute).
  assert (Hrun : get_query_tool "mem" "db2" w1 = (Returns demo_tool, w2))
    by (by vm_compute).
  destruct (get_query_tool_shares_store "mem" "db2" w1 demo_tool w2 1%nat
              [demo_table_document] Hmiss Hcache Hstore Hrun)
    as (_ & _ & Hboth).
  repeat (split; [assumption|]). exact Hboth.
Defined.

Lemma demo_describes :
  describes demo_uri ["t"] demo_db ["CREATE TABLE t (id INTEGER, name TEXT)"]
    demo_db.
Proof. econstructor; [reflexivity|constructor]. Qed.

(** X15 on the demo world: the database "db1" is fine, the vector store
    "nope" is unknown. *)
Lemma get_query_tool_unknown_vector_store_witness :
  vector_stores (session_state demo_world) !! "nope" = None
  ∧ databases (session_state demo_world) !! "db1" = Some {| uri := demo_uri |}
  ∧ ∃ w',
      get_query_tool "nope" "db1" demo_world = (Raises (KeyError "nope"), w')
      ∧ database_spec_cache w' !! "db1" = Some 0%nat
      ∧ query_tool_cache w' = ∅.
Proof.
  assert (Hdb : databases (session_state demo_world) !! "db1"
                = Some {| uri := demo_uri |}) by (by vm_compute).
  destruct (get_query_tool_unknown_vector_store "nope" "db1" demo_world
              {| uri := demo_uri |} demo_db ["t"] demo_db
              ["CREATE TABLE t (id INTEGER, name TEXT)"] demo_db)
    as (w' & Hrun & Hcache & _ & Htools & _);
    [reflexivity|reflexivity|reflexivity|exact Hdb|reflexivity|reflexivity
    |reflexivity|exact demo_describes|].
  split; [reflexivity|]. split; [exact Hdb|].
  exists w'. split; [exact Hrun|]. split; [exact Hcache | exact Htools].
Defined.

(** X16 on the demo world, after [set_handler(None)]. *)
Lemma load_data_handler_None_witness :
  let self := set_handler (new_spec demo_uri) HandlerNone in
  handler self = Some HandlerNone
  ∧ fst (load_data self (Some demo_query) demo_world)
    = Returns [{| text := "1, a" |}; {| text := "2, b" |}]
  ∧ session_state (snd (load_data self (Some demo_query) demo_world))
    = demo_session.
Proof.
  intros self.
  pose proof (load_data_handler_None self demo_query demo_world demo_db
                (Some demo_rows : @Cursor _ backend) (demo_db_after 1) demo_rows
                eq_refl eq_refl eq_refl eq_refl) as Hrun.
  split; [reflexivity|]. rewrite Hrun. by split.
Defined.


(** X18 on the demo world. *)
Lemma get_agent_binds_handler_witness :
  let w' := snd (get_agent "c1" 1 demo_world) in
  get_agent "c1" 1 demo_world = (Returns 2%nat, w')
  ∧ ∃ l self,
      database_spec_cache w' !! "db1" = Some l
      ∧ specs w' !! l = Some self
      ∧ handler self = Some (HandlerFunc database_spec_handler).
Proof.
  intros w'.
  assert (Hrun : get_agent "c1" 1 demo_world = (Returns 2%nat, w'))
    by (by vm_compute).
  destruct (get_agent_binds_handler "c1" 1 demo_world 2%nat w'
              {| vector_store_id := "mem"; database_ids := ["db1"];
                 query_results_queue := []; last_update_timestamp := 0 |}
              "db1" demo_world_wf eq_refl Hrun)
    as (l & self & tool & Hl & Hself & Hh & _).
  - by vm_compute.
  - apply elem_of_cons. by left.
  - split; [exact Hrun|]. by exists l, self.
Defined.

Lemma demo_fetches_any u :
  fetches u demo_query demo_db demo_rows (demo_db_after 1).
Proof. by econstructor. Qed.

(** X19 on the shared session: the agent is built for "c1" while "c2" is
    the current conversation, and the query lands in the queue of "c2". *)
Lemma agent_queries_reach_current_queue_witness :
  let w1 := snd (get_agent "c1" 1 shared_world) in
  current_conversation (session_state shared_world) = "c2"
  ∧ get_agent "c1" 1 shared_world = (Returns 2%nat, w1)
  ∧ ∃ l self (w2 : World DB) conv,
      database_spec_cache w1 !! "db1" = Some l
      ∧ specs w1 !! l = Some self
      ∧ load_data self (Some demo_query) w1
        = (Returns (map row_document demo_rows), w2)
      ∧ conversations (session_state w2) !! "c2" = Some conv
      ∧ query_results_queue conv = [(demo_query, demo_rows)]
      ∧ conversations (session_state w2) !! "c1"
        = conversations (session_state shared_world) !! "c1".
Proof.
  intros w1.
  assert (Hrun : get_agent "c1" 1 shared_world = (Returns 2%nat, w1))
    by (by vm_compute).
  destruct (agent_queries_reach_current_queue "c1" 1 shared_world 2%nat w1
              {| vector_store_id := "mem"; database_ids := ["db1"];
                 query_results_queue := []; last_update_timestamp := 0 |}
              "db1"
              {| vector_store_id := "mem"; database_ids := ["db2"; "db1"];
                 query_results_queue := []; last_update_timestamp := 0 |}
              shared_world_wf eq_refl Hrun)
    as (l & self & Hl & Hself & Hload).
  - by vm_compute.
  - apply elem_of_cons. by left.
  - by vm_compute.
  - destruct (Hload demo_query demo_rows (demo_db_after 1))
      as (w2 & Hrun2 & Hqueue).
    + replace (sql w1) with demo_db by (by vm_compute). apply demo_fetches_any.
    + split; [reflexivity|]. split; [exact Hrun|].
      exists l, self, w2. eexists.
      split; [exact Hl|]. split; [exact Hself|]. split; [exact Hrun2|].
      rewrite Hqueue. cbn.
      split; [apply lookup_insert_eq|]. split; [reflexivity|].
      by rewrite lookup_insert_ne.
Defined.
